(** * web-stalker: the technology scanner of main.py and v2.py

    A shallow embedding of [WebsiteTechnologyScanner] (src/main.py and
    src/v2.py) and of the console collaborator of src/Messages.py.

    - Python [str] values are sequences of Unicode code points: [text].
    - The compiled patterns of the three tables are terms of [regex]; the
      matcher is a backtracking matcher with the priorities of Python's
      [re] (leftmost match, alternatives tried left to right).
    - [self.results] is an insertion-ordered dictionary: an association
      list updated in place ([dict_set]).
    - The console ([Messages.*], [print]) is an output trace; the network
      ([requests.get] followed by [raise_for_status]) is an input of
      [fetch_website].
    - v2.py binds the class [Messages] ([from Messages import Messages]);
      main.py binds the module ([import Messages]), on which the calls
      [Messages.info] and the like raise [AttributeError]. *)

From Stdlib Require Import List ZArith NArith Bool String Ascii Lia.
Import ListNotations.

Set Implicit Arguments.

(* ================================================================== *)
(** ** Text *)
(* ================================================================== *)

Definition char := N.
Definition text := list char.

(** A Python string literal of the source, written with ASCII characters. *)
Definition py (s : string) : text :=
  List.map N_of_ascii (list_ascii_of_string s).

Fixpoint text_eqb (a b : text) : bool :=
  match a, b with
  | [], [] => true
  | x :: a', y :: b' => N.eqb x y && text_eqb a' b'
  | _, _ => false
  end.

(** [s.startswith(p)] *)
Fixpoint startswith (p s : text) : bool :=
  match p, s with
  | [], _ => true
  | x :: p', y :: s' => N.eqb x y && startswith p' s'
  | _ :: _, [] => false
  end.

(** [sub in s] *)
Fixpoint contains (sub s : text) : bool :=
  startswith sub s ||
  match s with
  | [] => false
  | _ :: s' => contains sub s'
  end.

(** [s.find(sub)], counted from position [i]: the index of the first
    occurrence, or -1. *)
Fixpoint find_from (sub s : text) (i : Z) : Z :=
  if startswith sub s then i
  else match s with
       | [] => (-1)%Z
       | _ :: s' => find_from sub s' (i + 1)
       end.

Definition str_find (s sub : text) : Z := find_from sub s 0.

Definition len (s : text) : Z := Z.of_nat (List.length s).

(** One bound of a slice, as Python normalises it: a negative index counts
    from the end, and the result is clamped to [0, len]. *)
Definition slice_index (n i : Z) : Z :=
  let j := if (i <? 0)%Z then (i + n)%Z else i in
  Z.min n (Z.max 0 j).

(** [s[a:b]] *)
Definition slice (s : text) (a b : Z) : text :=
  let lo := slice_index (len s) a in
  let hi := slice_index (len s) b in
  firstn (Z.to_nat (hi - lo)) (skipn (Z.to_nat lo) s).

(** [str.isspace] on one code point. *)
Definition isspace (c : char) : bool :=
  ((9 <=? c) && (c <=? 13) || (28 <=? c) && (c <=? 32) ||
   (c =? 133) || (c =? 160) || (c =? 5760) ||
   (8192 <=? c) && (c <=? 8202) || (c =? 8232) || (c =? 8233) ||
   (c =? 8239) || (c =? 8287) || (c =? 12288))%N.

Fixpoint lstrip (s : text) : text :=
  match s with
  | c :: s' => if isspace c then lstrip s' else s
  | [] => []
  end.

(** [s.strip()] *)
Definition strip (s : text) : text := rev (lstrip (rev (lstrip s))).

(* ================================================================== *)
(** ** Patterns compiled with [re.I] *)
(* ================================================================== *)

(** The constructs the three tables use: literal characters, [.],
    concatenation, [|] and one capturing group.  Every such pattern
    consumes at least one character. *)
Inductive regex : Type :=
| Lit (c : char)
| Dot
| Cat (r1 r2 : regex)
| Alt (r1 r2 : regex)
| Grp (r : regex).

Definition is_upper (c : char) : bool := ((65 <=? c) && (c <=? 90))%N.
Definition is_lower (c : char) : bool := ((97 <=? c) && (c <=? 122))%N.

(** The simple lower-case mapping, on the code points whose image is an
    ASCII letter: A-Z, U+0130 and U+212A.  (No other code point is mapped
    to ASCII; the patterns hold ASCII only.) *)
Definition tolower (c : char) : char :=
  (if is_upper c then c + 32
   else if c =? 304 then 105
   else if c =? 8490 then 107
   else c)%N.

(** A literal of a pattern compiled with [re.I] against one character of
    the subject; U+0131 and U+017F are the extra equivalents of [i] and [s]. *)
Definition lit_match (p c : char) : bool :=
  if is_upper p || is_lower p then
    let lo := tolower p in
    ((tolower c =? lo) || (lo =? 105) && (c =? 305) || (lo =? 115) && (c =? 383))%N
  else (c =? p)%N.

(** Backtracking match of [r] at the head of [s]; [g] is the text of
    group 1 so far, [k] the continuation on the rest of the subject. *)
Fixpoint rmatch (A : Type) (r : regex) (s : text) (g : option text)
         (k : text -> option text -> option A) : option A :=
  match r with
  | Lit p =>
      match s with
      | c :: s' => if lit_match p c then k s' g else None
      | [] => None
      end
  | Dot =>
      match s with
      | c :: s' => if (c =? 10)%N then None else k s' g
      | [] => None
      end
  | Cat r1 r2 => rmatch r1 s g (fun s1 g1 => rmatch r2 s1 g1 k)
  | Alt r1 r2 =>
      match rmatch r1 s g k with
      | Some v => Some v
      | None => rmatch r2 s g k
      end
  | Grp r1 =>
      rmatch r1 s g
        (fun s1 _ => k s1 (Some (firstn (List.length s - List.length s1) s)))
  end.

(** The matched text and group 1 of a match anchored at the head of [s]. *)
Definition match_here (r : regex) (s : text) : option (text * option text) :=
  rmatch r s None
    (fun rest g => Some (firstn (List.length s - List.length rest) s, g)).

(** A match object: [start()], [group()] and group 1. *)
Record Match : Type := mkMatch {
  m_start : Z;
  m_group : text;
  m_group1 : option text
}.

Definition m_end (m : Match) : Z := (m_start m + len (m_group m))%Z.

Fixpoint search_from (r : regex) (s : text) (i : Z) : option Match :=
  match match_here r s with
  | Some (t, g) => Some (mkMatch i t g)
  | None =>
      match s with
      | [] => None
      | _ :: s' => search_from r s' (i + 1)
      end
  end.

(** [pattern.search(s)] *)
Definition search (r : regex) (s : text) : option Match := search_from r s 0.

(** Truth value of [pattern.search(s)] *)
Definition matches (r : regex) (s : text) : bool :=
  match search r s with Some _ => true | None => false end.

Fixpoint has_group (r : regex) : bool :=
  match r with
  | Lit _ | Dot => false
  | Cat r1 r2 | Alt r1 r2 => has_group r1 || has_group r2
  | Grp _ => true
  end.

(** What [findall] lists for one match: the whole match when the pattern
    has no group, else group 1 (the empty string when it did not take part). *)
Definition findall_item (r : regex) (t : text) (g : option text) : text :=
  if has_group r then match g with Some x => x | None => [] end else t.

(** Scan for non-overlapping matches; [skip] characters of the last match
    are still to be passed. *)
Fixpoint findall_skip (r : regex) (s : text) (skip : nat) : list text :=
  match skip with
  | S n =>
      match s with
      | [] => []
      | _ :: s' => findall_skip r s' n
      end
  | O =>
      match match_here r s with
      | Some (t, g) =>
          findall_item r t g ::
          match s with
          | [] => []
          | _ :: s' => findall_skip r s' (List.length t - 1)
          end
      | None =>
          match s with
          | [] => []
          | _ :: s' => findall_skip r s' 0
          end
      end
  end.

(** [pattern.findall(s)] *)
Definition findall (r : regex) (s : text) : list text := findall_skip r s 0.

(** A word of a pattern: the concatenation of its literals. *)
Fixpoint word_from (c : char) (t : text) : regex :=
  match t with
  | [] => Lit c
  | d :: t' => Cat (Lit c) (word_from d t')
  end.

Definition word (s : string) : regex :=
  match py s with
  | c :: t => word_from c t
  | [] => Dot (* no word of the tables is empty *)
  end.

(* ================================================================== *)
(** ** The pattern tables (class attributes, in declaration order) *)
(* ================================================================== *)

Definition table := list (text * regex).

Definition TECHNOLOGIES : table :=
  [ (py "WordPress", Alt (word "wp-content") (word "wordpress"));
    (py "Django", Alt (word "csrfmiddlewaretoken") (word "django"));
    (py "Flask", Alt (word "flask-session") (word "flask"));
    (py "Ruby on Rails", Alt (word "ruby") (word "rails"));
    (py "Laravel", Alt (word "laravel") (word "php artisan"));
    (py "Next.js", Alt (word "nextjs") (word "_next"));
    (py "React", Alt (word "react") (word "react-dom"));
    (py "Vue.js", Alt (word "vuejs") (word "vue-router"));
    (py "CS-Cart",
      Alt (word "cscart")
          (Cat (word "var/") (Grp (Alt (word "cache") (word "compiled")))));
    (py "Bitrix", Alt (word "bitrix") (word "bxcore")) ].

Definition WEB_SERVERS : table :=
  [ (py "nginx", word "nginx");
    (py "Apache", word "apache");
    (py "LiteSpeed", word "LiteSpeed") ].

Definition BACKEND_LANGUAGES : table :=
  [ (py "PHP", word "php");
    (py "Python", word "python");
    (py "Ruby", word "ruby");
    (py "Node.js",
      Alt (Cat (word "node") (Cat Dot (word "js"))) (word "javascript")) ].

Definition labels (t : table) : list text := List.map fst t.

(* ================================================================== *)
(** ** Dictionaries, results and the console *)
(* ================================================================== *)

(** An insertion-ordered dictionary with [str] keys. *)
Definition dict (V : Type) := list (text * V).

(** [d.get(k)] *)
Fixpoint dict_get (V : Type) (k : text) (d : dict V) : option V :=
  match d with
  | [] => None
  | (k', v) :: d' => if text_eqb k' k then Some v else dict_get k d'
  end.

(** [d[k] = v]: an existing key keeps its place, a new key goes last. *)
Fixpoint dict_set (V : Type) (k : text) (v : V) (d : dict V) : dict V :=
  match d with
  | [] => [(k, v)]
  | (k', v') :: d' =>
      if text_eqb k' k then (k', v) :: d' else (k', v') :: dict_set k v d'
  end.

Definition keys (V : Type) (d : dict V) : list text := List.map fst d.
Definition values (V : Type) (d : dict V) : list V := List.map snd d.

(** The values stored in [self.results]: the server as a plain string,
    a detection as a dictionary of strings. *)
Inductive value : Type :=
| VStr (s : text)
| VDict (d : dict text).

(** The response headers, in the order of the response.  [headers.get]
    is that of requests' case-insensitive dictionary: keys are compared
    lower-cased (for the key [Server], the only one looked up, nothing but
    the ASCII capitals is mapped onto its letters). *)
Definition HeaderMap := dict text.

Definition lower_ascii (s : text) : text :=
  List.map (fun c => if is_upper c then (c + 32)%N else c) s.

Fixpoint headers_get (k default : text) (h : HeaderMap) : text :=
  match h with
  | [] => default
  | (k', v) :: h' =>
      if text_eqb (lower_ascii k') (lower_ascii k) then v
      else headers_get k default h'
  end.

Inductive level : Type := INFO | WARN | ERROR | SUCCESS.

(** What reaches standard output: the banner, a line of [Messages.log]
    (its time stamp left out) and the results printed by [json.dumps]. *)
Inductive event : Type :=
| Banner
| Log (l : level) (message : text)
| PrintJson (r : dict value).

Record state : Type := mkState {
  results : dict value;
  out : list event
}.

(** [NoAttribute name] is the [AttributeError] of a module that has no
    attribute [name]. *)
Inductive exn : Type :=
| KeyError (k : text)
| StopIteration
| NoAttribute (name : text).

Inductive outcome (A : Type) : Type :=
| Ok (a : A) (st : state)
| Raise (e : exn) (st : state).

Arguments Raise {A} e st.

(** Methods of the scanner: state passing with exceptions. *)
Definition M (A : Type) : Type := state -> outcome A.

Definition ret (A : Type) (a : A) : M A := fun st => Ok a st.

Definition bind (A B : Type) (m : M A) (f : A -> M B) : M B :=
  fun st =>
    match m st with
    | Ok a st' => f a st'
    | Raise e st' => Raise e st'
    end.

Definition raise (A : Type) (e : exn) : M A := fun st => Raise e st.

Arguments raise {A} e.

Notation "x <- m ;; f" := (bind m (fun x => f))
  (at level 61, m at next level, right associativity).
Notation "m ;; f" := (bind m (fun _ => f))
  (at level 61, right associativity).

(** [print]: the line goes to the console.  (The text printed is taken to
    be one that standard output can encode: labels are ASCII and header
    values Latin-1; the statements on lines made of the body, of the URL
    or of an error text say so, see [printable].) *)
Definition emit (e : event) : M unit :=
  fun st => Ok tt (mkState (results st) (out st ++ [e])).

Definition get_results : M (dict value) := fun st => Ok (results st) st.

(** [self.results[k] = v] *)
Definition set_result (k : text) (v : value) : M unit :=
  fun st => Ok tt (mkState (dict_set k v (results st)) (out st)).

(** [if c: m] *)
Definition when (c : bool) (m : M unit) : M unit := if c then m else ret tt.

(** The state a method ends in, whether it returns or raises. *)
Definition final (A : Type) (o : outcome A) : state :=
  match o with Ok _ st => st | Raise _ st => st end.

Definition returns (A : Type) (o : outcome A) : bool :=
  match o with Ok _ _ => true | Raise _ _ => false end.

(** src/Messages.py: the static methods of the class [Messages], which is
    what the name [Messages] stands for in v2.py
    ([from Messages import Messages]). *)
Module Messages.
Definition info (m : text) : M unit := emit (Log INFO m).
Definition warn (m : text) : M unit := emit (Log WARN m).
Definition error (m : text) : M unit := emit (Log ERROR m).
Definition success (m : text) : M unit := emit (Log SUCCESS m).
Definition banner : M unit := emit Banner.
End Messages.

(** What the name [Messages] stands for in main.py ([import Messages],
    main.py:5): the module src/Messages.py, whose attribute is the class
    and nothing else.  Looking up [info], [warn], [error], [success] or
    [banner] on it raises [AttributeError], before the argument of the
    call is looked at. *)
Module MessagesModule.
Definition info (m : text) : M unit := raise (NoAttribute (py "info")).
Definition warn (m : text) : M unit := raise (NoAttribute (py "warn")).
Definition error (m : text) : M unit := raise (NoAttribute (py "error")).
Definition success (m : text) : M unit := raise (NoAttribute (py "success")).
Definition banner : M unit := raise (NoAttribute (py "banner")).
End MessagesModule.

(** The scanner object: [__init__] stores these and starts from empty
    results. *)
Record scanner : Type := mkScanner {
  url : text;
  verbose : bool;
  output_json : bool
}.

Definition init : state := mkState [] [].

(** What [requests.get] followed by [raise_for_status] gives: a
    [RequestException] (connection error, timeout, 4xx or 5xx status),
    or the response with its decoded body and its headers. *)
Inductive fetched : Type :=
| RequestException (e : text)
| Response (body : text) (headers : HeaderMap).

(* ================================================================== *)
(** ** v2.py: the fetch, the web server and the report *)
(* ================================================================== *)

(** These methods of v2.py (v2.py:46-61, 118-126 and 184-214) have the
    text of main.py's; there the name [Messages] is the module, see
    [Main] below. *)

(** [detect_web_server]: the [for] loop over [WEB_SERVERS.items()], left
    by [return] at the first pattern found in [server_info]. *)
Fixpoint detect_web_server_loop (tbl : table) (server_info : text) : M unit :=
  match tbl with
  | [] => Messages.warn (py "No known web server detected.")
  | (server, pattern) :: rest =>
      if matches pattern server_info then
        Messages.success (py "Detected web server: " ++ server) ;;
        set_result (py "Web Server") (VStr server)
      else detect_web_server_loop rest server_info
  end.

Definition detect_web_server (server_info : text) : M unit :=
  Messages.info (py "Analyzing web server information.") ;;
  detect_web_server_loop WEB_SERVERS server_info.

(** [fetch_website]: returns [(response.text, response.headers)], or
    [(None, None)] (here [None]) after a [RequestException]. *)
Definition fetch_website (self : scanner) (net : fetched)
  : M (option (text * HeaderMap)) :=
  when (verbose self)
       (Messages.info (py "Fetching content from " ++ url self)) ;;
  match net with
  | RequestException e =>
      Messages.error (py "Connection error: " ++ e) ;;
      ret None
  | Response body headers =>
      let server := headers_get (py "Server") (py "Unknown") headers in
      when (verbose self) (Messages.success (py "Web Server: " ++ server)) ;;
      set_result (py "Web Server") (VStr server) ;;
      detect_web_server server ;;
      ret (Some (body, headers))
  end.

(** [value[k]] on a detection *)
Definition subscript (d : dict text) (k : text) : M text :=
  match dict_get k d with
  | Some v => ret v
  | None => raise (KeyError k)
  end.

(** The loop of [run] over [self.results.items()]. *)
Fixpoint report_items (items : dict value) : M unit :=
  match items with
  | [] => ret tt
  | (key, VDict d) :: rest =>
      name <- subscript d (py "name") ;;
      by_ <- subscript d (py "detected_by") ;;
      Messages.success
        (key ++ py ": " ++ name ++ py " (Detected by: " ++ by_ ++ py ")") ;;
      report_items rest
  | (key, VStr v) :: rest =>
      Messages.success (key ++ py ": " ++ v) ;;
      report_items rest
  end.

(** The end of [run], after the detectors: the report, the JSON output
    when asked for, and the closing line. *)
Definition report (self : scanner) : M unit :=
  res <- get_results ;;
  match res with
  | _ :: _ => Messages.info (py "Scan results:") ;; report_items res
  | [] => Messages.warn (py "No technologies detected.")
  end ;;
  res' <- get_results ;;
  when (output_json self) (emit (PrintJson res')) ;;
  Messages.info (py "Scan completed.").

(** [run] of v2.py (v2.py:184-214), with its two detectors as arguments. *)
Definition run_with (frontend : text -> M unit)
           (backend : text -> HeaderMap -> M unit)
           (self : scanner) (net : fetched) : M unit :=
  Messages.banner ;;
  Messages.info (py "Starting scan for website: " ++ url self) ;;
  r <- fetch_website self net ;;
  match r with
  | None | Some ([], _) =>
      Messages.warn (py "Failed to retrieve website content.")
  | Some (html_content, headers) =>
      frontend html_content ;;
      backend html_content headers ;;
      report self
  end.

(* ================================================================== *)
(** ** main.py *)
(* ================================================================== *)

Module Main.

(** [detect_web_server], main.py:63-71. *)
Fixpoint detect_web_server_loop (tbl : table) (server_info : text) : M unit :=
  match tbl with
  | [] => MessagesModule.warn (py "No known web server detected.")
  | (server, pattern) :: rest =>
      if matches pattern server_info then
        MessagesModule.success (py "Detected web server: " ++ server) ;;
        set_result (py "Web Server") (VStr server)
      else detect_web_server_loop rest server_info
  end.

Definition detect_web_server (server_info : text) : M unit :=
  MessagesModule.info (py "Analyzing web server information.") ;;
  detect_web_server_loop WEB_SERVERS server_info.

(** [fetch_website], main.py:46-61.  [except requests.RequestException]
    does not catch the [AttributeError] of the [try] block, nor the one
    its own handler raises. *)
Definition fetch_website (self : scanner) (net : fetched)
  : M (option (text * HeaderMap)) :=
  when (verbose self)
       (MessagesModule.info (py "Fetching content from " ++ url self)) ;;
  match net with
  | RequestException e =>
      MessagesModule.error (py "Connection error: " ++ e) ;;
      ret None
  | Response body headers =>
      let server := headers_get (py "Server") (py "Unknown") headers in
      when (verbose self)
           (MessagesModule.success (py "Web Server: " ++ server)) ;;
      set_result (py "Web Server") (VStr server) ;;
      detect_web_server server ;;
      ret (Some (body, headers))
  end.

(** [identify_technology], main.py:73-83: the loop over
    [TECHNOLOGIES.items()] has no [return]. *)
Fixpoint identify_technology_loop (tbl : table) (html : text) : M unit :=
  match tbl with
  | [] => ret tt
  | (tech, pattern) :: rest =>
      match search pattern html with
      | Some m =>
          MessagesModule.success
            (py "Frontend: " ++ tech ++ py " (Detected by: " ++ m_group m
                ++ py ")") ;;
          set_result (py "Frontend")
            (VDict [(py "name", tech); (py "detected_by", m_group m)])
      | None => ret tt
      end ;;
      identify_technology_loop rest html
  end.

Definition identify_technology (html : text) : M unit :=
  MessagesModule.info
    (py "Analyzing website content for technology patterns.") ;;
  identify_technology_loop TECHNOLOGIES html.

(** [next((value for value in headers.values() if pattern.search(value)),
    "Unknown")] *)
Fixpoint first_matching (pattern : regex) (vs : list text) : text :=
  match vs with
  | [] => py "Unknown"
  | v :: vs' => if matches pattern v then v else first_matching pattern vs'
  end.

(** [identify_backend_language], main.py:85-103. *)
Fixpoint identify_backend_language_loop (tbl : table) (html : text)
         (headers : HeaderMap) : M unit :=
  match tbl with
  | [] => MessagesModule.warn (py "No backend language detected.")
  | (lang, pattern) :: rest =>
      let match_html := search pattern html in
      let match_header := existsb (matches pattern) (values headers) in
      if match match_html with Some _ => true | None => false end
         || match_header
      then
        let source :=
          match match_html with
          | Some _ => py "HTML"
          | None => py "Headers"
          end in
        let match_value :=
          match match_html with
          | Some m => m_group m
          | None => first_matching pattern (values headers)
          end in
        MessagesModule.success
          (py "Language: " ++ lang ++ py " (Detected in " ++ source
              ++ py " by: " ++ match_value ++ py ")") ;;
        set_result (py "Backend Language")
          (VDict [(py "name", lang); (py "source", source);
                  (py "detected_by", match_value)])
      else identify_backend_language_loop rest html headers
  end.

Definition identify_backend_language (html : text) (headers : HeaderMap)
  : M unit :=
  MessagesModule.info
    (py "Analyzing website content and headers for backend language patterns.") ;;
  identify_backend_language_loop BACKEND_LANGUAGES html headers.

(** The loop of [run] over [self.results.items()], main.py:120-124. *)
Fixpoint report_items (items : dict value) : M unit :=
  match items with
  | [] => ret tt
  | (key, VDict d) :: rest =>
      name <- subscript d (py "name") ;;
      by_ <- subscript d (py "detected_by") ;;
      MessagesModule.success
        (key ++ py ": " ++ name ++ py " (Detected by: " ++ by_ ++ py ")") ;;
      report_items rest
  | (key, VStr v) :: rest =>
      MessagesModule.success (key ++ py ": " ++ v) ;;
      report_items rest
  end.

(** [run], main.py:105-130. *)
Definition run (self : scanner) (net : fetched) : M unit :=
  MessagesModule.banner ;;
  MessagesModule.info (py "Starting scan for website: " ++ url self) ;;
  r <- fetch_website self net ;;
  match r with
  | None | Some ([], _) =>
      MessagesModule.warn (py "Failed to retrieve website content.")
  | Some (html_content, headers) =>
      identify_technology html_content ;;
      identify_backend_language html_content headers ;;
      res <- get_results ;;
      match res with
      | _ :: _ =>
          MessagesModule.info (py "Scan results:") ;; report_items res
      | [] => MessagesModule.warn (py "No technologies detected.")
      end ;;
      res' <- get_results ;;
      when (output_json self) (emit (PrintJson res')) ;;
      MessagesModule.info (py "Scan completed.")
  end.

End Main.

(* ================================================================== *)
(** ** v2.py *)
(* ================================================================== *)

Module V2.

(** The table local to [is_valid_context]. *)
Definition related_keywords : dict (list text) :=
  [ (py "WordPress", [py "wp-content"; py "wp-includes"]);
    (py "Django", [py "csrfmiddlewaretoken"]);
    (py "Flask", [py "flask-session"]);
    (py "React", [py "react-dom"; py "jsx"]) ].

(** [any(keyword in context for keyword in related_keywords.get(tech, []))] *)
Definition is_valid_context (context tech : text) : bool :=
  existsb (fun keyword => contains keyword context)
          (match dict_get tech related_keywords with
           | Some ks => ks
           | None => []
           end).

(** [html[max(0, html.find(match) - 50):html.find(match) + 50]] *)
Definition context_of (html match_ : text) : text :=
  slice html (Z.max 0 (str_find html match_ - 50)) (str_find html match_ + 50).

(** The inner loop of [identify_technology_with_context] over the
    strings of [findall]; [true] when it left the method by [return]. *)
Fixpoint validate_matches (html tech : text) (found : list text) : M bool :=
  match found with
  | [] => ret false
  | match_ :: rest =>
      let context := context_of html match_ in
      if is_valid_context context tech then
        Messages.success
          (py "Detected Frontend: " ++ tech ++ py " (Context: "
              ++ strip context ++ py ")") ;;
        set_result (py "Frontend")
          (VDict [(py "name", tech); (py "detected_by", match_)]) ;;
        ret true
      else validate_matches html tech rest
  end.

Fixpoint identify_technology_loop (tbl : table) (html : text) : M unit :=
  match tbl with
  | [] => Messages.warn (py "No frontend technologies detected.")
  | (tech, pattern) :: rest =>
      returned <- validate_matches html tech (findall pattern html) ;;
      if returned then ret tt else identify_technology_loop rest html
  end.

Definition identify_technology_with_context (html : text) : M unit :=
  Messages.info (py "Analyzing website content for technologies.") ;;
  identify_technology_loop TECHNOLOGIES html.

(** [next(value for key, value in headers.items() if pattern.search(value))] *)
Fixpoint next_matching (pattern : regex) (items : HeaderMap) : M text :=
  match items with
  | [] => raise StopIteration
  | (_, v) :: items' =>
      if matches pattern v then ret v else next_matching pattern items'
  end.

(** [html[max(0, match_html.start() - 50):match_html.end() + 50]] *)
Definition context_at (html : text) (m : Match) : text :=
  slice html (Z.max 0 (m_start m - 50)) (m_end m + 50).

Fixpoint identify_backend_language_loop (tbl : table) (html : text)
         (headers : HeaderMap) : M unit :=
  match tbl with
  | [] => Messages.warn (py "No backend language detected.")
  | (lang, pattern) :: rest =>
      let match_html := search pattern html in
      let match_header := existsb (matches pattern) (values headers) in
      returned <-
        match match_html with
        | Some m =>
            let context := context_at html m in
            if is_valid_context context lang then
              Messages.success
                (py "Detected Backend Language: " ++ lang ++ py " (Context: "
                    ++ strip context ++ py ")") ;;
              set_result (py "Backend Language")
                (VDict [(py "name", lang); (py "detected_by", strip context)]) ;;
              ret true
            else ret false
        | None => ret false
        end ;;
      if returned then ret tt
      else if match_header then
        header_value <- next_matching pattern headers ;;
        Messages.success
          (py "Detected Backend Language: " ++ lang ++ py " (Header: "
              ++ header_value ++ py ")") ;;
        set_result (py "Backend Language")
          (VDict [(py "name", lang); (py "detected_by", py "Headers")])
      else identify_backend_language_loop rest html headers
  end.

Definition identify_backend_language_with_context (html : text)
           (headers : HeaderMap) : M unit :=
  Messages.info
    (py "Analyzing website headers and content for backend language.") ;;
  identify_backend_language_loop BACKEND_LANGUAGES html headers.

Definition run : scanner -> fetched -> M unit :=
  run_with identify_technology_with_context
           identify_backend_language_with_context.

End V2.

(* ================================================================== *)
(** ** Vocabulary of the statements *)
(* ================================================================== *)

(** A detection as main.py stores it for the front end and as v2.py
    stores every detection. *)
Definition detection (name detected_by : text) : value :=
  VDict [(py "name", name); (py "detected_by", detected_by)].

Definition is_json (e : event) : bool :=
  match e with PrintJson _ => true | _ => false end.

(** The objects [json.dumps] printed, in order. *)
Definition json_output (st : state) : list (dict value) :=
  flat_map (fun e => match e with PrintJson r => [r] | _ => [] end) (out st).

(** The first entry of a table, in declaration order, that [hit] accepts. *)
Definition first_hit (hit : text -> regex -> bool) (t : table)
  : option (text * regex) :=
  find (fun e => hit (fst e) (snd e)) t.

Definition quote : text := [34%N].

(** [<meta name="generator" content="WordPress 6.0">] *)
Definition wordpress_meta : text :=
  py "<meta name=" ++ quote ++ py "generator" ++ quote ++ py " content="
     ++ quote ++ py "WordPress 6.0" ++ quote ++ py ">".

Definition spaces (n : nat) : text := repeat 32%N n.

Definition nginx_headers : HeaderMap := [(py "Server", py "nginx/1.18.0")].

Definition php_headers : HeaderMap := [(py "X-Powered-By", py "PHP/8.1")].

Definition example_scanner : scanner :=
  mkScanner (py "http://example.com") true true.

(** What [detect_web_server] leaves in the results. *)
Definition web_server_record (server_info : text) (r : dict value)
  : dict value :=
  match first_hit (fun _ p => matches p server_info) WEB_SERVERS with
  | Some e => dict_set (py "Web Server") (VStr (fst e)) r
  | None => r
  end.

Definition is_some (A : Type) (o : option A) : bool :=
  match o with Some _ => true | None => false end.

(** The value of the [Server] header as [fetch_website] reads it. *)
Definition server_of (headers : HeaderMap) : text :=
  headers_get (py "Server") (py "Unknown") headers.

(** The server the aggregate names after a successful fetch: the label
    of the table when one is found in the header value, else the raw value. *)
Definition reported_server (headers : HeaderMap) : text :=
  match first_hit (fun _ p => matches p (server_of headers)) WEB_SERVERS with
  | Some e => fst e
  | None => server_of headers
  end.

(** The console lines of a scan whose fetch raised. *)
Definition abort_trace (self : scanner) (e : text) : list event :=
  [ Banner; Log INFO (py "Starting scan for website: " ++ url self) ]
  ++ (if verbose self
      then [ Log INFO (py "Fetching content from " ++ url self) ] else [])
  ++ [ Log ERROR (py "Connection error: " ++ e);
       Log WARN (py "Failed to retrieve website content.") ].

(** The first string of [findall] whose window validates for [tech]. *)
Definition first_valid (html tech : text) (found : list text) : option text :=
  find (fun m => V2.is_valid_context (V2.context_of html m) tech) found.

(** The test of v2.py's front-end detector for one label. *)
Definition frontend_hit_v2 (html tech : text) (p : regex) : bool :=
  is_some (first_valid html tech (findall p html)).

(** The detection v2.py's front-end detector stores for a label it stops at. *)
Definition frontend_record_v2 (html : text) (e : text * regex) : value :=
  detection (fst e)
    (match first_valid html (fst e) (findall (snd e) html) with
     | Some m => m
     | None => []
     end).

(** The body test of v2.py's back-end detector: the first match of the
    pattern, with a window that validates for the label. *)
Definition body_valid (html lang : text) (p : regex) : bool :=
  match search p html with
  | Some m => V2.is_valid_context (V2.context_at html m) lang
  | None => false
  end.

Definition header_hit (headers : HeaderMap) (p : regex) : bool :=
  existsb (matches p) (values headers).

(** The detection v2.py's back-end detector stores for a label it stops at. *)
Definition backend_record_v2 (html : text) (e : text * regex) : value :=
  match search (snd e) html with
  | Some m =>
      if V2.is_valid_context (V2.context_at html m) (fst e)
      then detection (fst e) (strip (V2.context_at html m))
      else detection (fst e) (py "Headers")
  | None => detection (fst e) (py "Headers")
  end.

(** The labels of a table that [related_keywords] has an entry for. *)
Definition covered (t : table) : list text :=
  filter (fun l => is_some (dict_get l V2.related_keywords)) (labels t).

(** The [name] of the detection stored under a key of the results. *)
Definition recorded_name (k : text) (r : dict value) : option text :=
  match dict_get k r with
  | Some (VDict d) => dict_get (py "name") d
  | _ => None
  end.

(** A value [run] can report: a plain string, or a dictionary with the
    keys [name] and [detected_by]. *)
Definition reportable (v : value) : bool :=
  match v with
  | VStr _ => true
  | VDict d =>
      is_some (dict_get (py "name") d) && is_some (dict_get (py "detected_by") d)
  end.

Definition all_reportable (r : dict value) : bool :=
  forallb (fun kv => reportable (snd kv)) r.

(** [r'] is [r], or [r] with one reportable value stored under [k]. *)
Definition extends (k : text) (r r' : dict value) : Prop :=
  r' = r \/ exists v, reportable v = true /\ r' = dict_set k v r.

(** A detector of [run]: it returns, prints no JSON and stores at most
    one reportable value, under [k]. *)
Definition detector (k : text) (f : M unit) : Prop :=
  forall st, exists r' logs,
    f st = Ok tt (mkState r' (out st ++ logs))
    /\ existsb is_json logs = false
    /\ extends k (results st) r'.

(** Two bodies for the front-end detector of v2.py: React is matched
    twice, with [jsx] next to the second match only; and [jsx] begins 46
    characters after the end of the only match. *)
Definition react_twice : text := py "react" ++ spaces 60 ++ py "jsx react".

Definition react_then_jsx : text := py "react" ++ spaces 46 ++ py "jsx".

Definition react_pattern : regex := Alt (word "react") (word "react-dom").

(* ================================================================== *)
(** ** The rest of the three files *)
(* ================================================================== *)

(** [main]: the namespace of [parser.parse_args()], and the scanner built
    from it with [verbose=args.verbose or True]; [run] is that of the
    file at hand. *)
Record args : Type := mkArgs {
  arg_url : text;
  arg_verbose : bool;
  arg_json : bool
}.

Definition main_with (run : scanner -> fetched -> M unit) (a : args)
           (net : fetched) : outcome unit :=
  let scanner :=
    mkScanner (arg_url a) (arg_verbose a || true) (arg_json a) in
  run scanner net init.

(** [Messages.log]: the line it prints, for the time stamp
    [datetime.now().strftime(...)] gave. *)
Definition ESC : text := [27%N].

Definition log (timestamp message_type color_code message : text) : text :=
  py "[" ++ ESC ++ py "[1;" ++ color_code ++ py "m" ++ message_type
     ++ ESC ++ py "[0m] " ++ timestamp ++ py " - " ++ message.

(** The arguments [info], [warn], [error] and [success] pass to [log]. *)
Definition message_type (l : level) : text :=
  match l with
  | INFO => py "INFO"
  | WARN => py "WARN"
  | ERROR => py "ERROR"
  | SUCCESS => py "SUCCESS"
  end.

Definition color_code (l : level) : text :=
  match l with
  | INFO => py "32"
  | WARN => py "93"
  | ERROR => py "31"
  | SUCCESS => py "96"
  end.

Definition log_line (timestamp : text) (l : level) (message : text) : text :=
  log timestamp (message_type l) (color_code l) message.

(** v2.py, [detect_backend(headers, html)]: the patterns are searched with
    [re.search(pattern, _, re.I)]. *)
Definition backend_patterns : table :=
  [ (py "PHP", word ".php");
    (py "Python", Grp (Alt (word "wsgi") (Alt (word "django") (word "flask"))));
    (py "Ruby", Grp (Alt (word "rails") (word ".rb")));
    (py "Node.js", Alt (word "express") (Cat (word "node") (Cat Dot (word "js")))) ].

(** The first loop: the first label with a pattern found in a header value. *)
Fixpoint detect_backend_headers (tbl : table) (headers : HeaderMap)
  : option text :=
  match tbl with
  | [] => None
  | (backend, pattern) :: rest =>
      if existsb (matches pattern) (values headers) then Some backend
      else detect_backend_headers rest headers
  end.

(** The second loop: the first label with a pattern found in the body. *)
Fixpoint detect_backend_html (tbl : table) (html : text) : option text :=
  match tbl with
  | [] => None
  | (backend, pattern) :: rest =>
      if matches pattern html then Some backend
      else detect_backend_html rest html
  end.

(** [detect_backend] returns, or stops at [Messages.warning]: the class
    [Messages] has no attribute of that name. *)
Inductive attr_outcome (A : Type) : Type :=
| Returned (a : A) (st : state)
| AttributeError (attribute : text) (st : state).

Arguments AttributeError {A} attribute st.

Definition detect_backend (headers : HeaderMap) (html : text) (st : state)
  : attr_outcome (option text) :=
  let detected_backend :=
    match detect_backend_headers backend_patterns headers with
    | Some backend => Some backend
    | None => detect_backend_html backend_patterns html
    end in
  match detected_backend with
  | Some backend =>
      Returned (Some backend)
        (final (Messages.success
                  (py "Detected backend language: " ++ backend) st))
  | None => AttributeError (py "warning") st
  end.

(* ================================================================== *)
(** ** Vocabulary of the further statements *)
(* ================================================================== *)

(** The line [run] prints when the results are empty. *)
Definition is_no_technologies (e : event) : bool :=
  match e with
  | Log WARN m => text_eqb m (py "No technologies detected.")
  | _ => false
  end.

(** A method started in a state of [P] returns in a state of [Q], or
    raises in a state of [E]. *)
Definition triple (A : Type) (P : state -> Prop) (f : M A)
           (Q : A -> state -> Prop) (E : state -> Prop) : Prop :=
  forall st, P st ->
    match f st with
    | Ok a st' => Q a st'
    | Raise _ st' => E st'
    end.

(** The console never showed the line of empty results. *)
Definition never_empty_line (st : state) : Prop :=
  existsb is_no_technologies (out st) = false.

(** ... and the results hold an entry. *)
Definition some_result (st : state) : Prop :=
  never_empty_line st /\ results st <> [].

(** What the detectors of v2.py leave in the results. *)
Definition frontend_result_v2 (html : text) (r : dict value) : dict value :=
  match first_hit (frontend_hit_v2 html) TECHNOLOGIES with
  | Some e => dict_set (py "Frontend") (frontend_record_v2 html e) r
  | None => r
  end.

Definition backend_result_v2 (html : text) (headers : HeaderMap)
           (r : dict value) : dict value :=
  match first_hit (fun lang p => body_valid html lang p || header_hit headers p)
                  BACKEND_LANGUAGES with
  | Some e => dict_set (py "Backend Language") (backend_record_v2 html e) r
  | None => r
  end.

(** A method that returns with the results changed by [g] and the console
    extended. *)
Definition transforms (g : dict value -> dict value) (f : M unit) : Prop :=
  forall st, exists logs,
    f st = Ok tt (mkState (g (results st)) (out st ++ logs)).

(** A method that keeps [P], whether it returns or raises. *)
Definition keeps (A : Type) (P : state -> Prop) (f : M A) : Prop :=
  triple P f (fun _ => P) P.

(** The results of a scan, from the response alone, for detectors that
    change the results by [gf] and [gb]. *)
Definition scan_results (gf : text -> dict value -> dict value)
           (gb : text -> HeaderMap -> dict value -> dict value)
           (net : fetched) : dict value :=
  match net with
  | RequestException _ => []
  | Response [] headers =>
      [(py "Web Server", VStr (reported_server headers))]
  | Response body headers =>
      gb body headers
         (gf body [(py "Web Server", VStr (reported_server headers))])
  end.

(** The console shows the line [e]. *)
Definition printed (e : event) (st : state) : Prop := In e (out st).

(** Some header value gives [detect_backend] a match. *)
Definition header_evidence (headers : HeaderMap) : bool :=
  existsb (fun e => existsb (matches (snd e)) (values headers)) backend_patterns.

Definition express_headers : HeaderMap := [(py "X-Powered-By", py "Express")].

(** A surrogate code point; a UTF-8 standard output cannot encode it. *)
Definition is_surrogate (c : char) : bool :=
  ((55296 <=? c) && (c <=? 57343))%N.

(** Text that [print] can write to a UTF-8 standard output. *)
Definition printable (s : text) : bool :=
  forallb (fun c => negb (is_surrogate c)) s.

(** The text of a fetch outcome that [run] prints parts of. *)
Definition printable_net (net : fetched) : bool :=
  match net with
  | RequestException e => printable e
  | Response body _ => printable body
  end.

(** Text of code points below 256, as the header values of a response
    are (the library decodes them as Latin-1). *)
Definition latin1 (s : text) : bool :=
  forallb (fun c => (c <? 256)%N) s.

(* ================================================================== *)
(** ** Dictionaries *)
(* ================================================================== *)

Lemma text_eqb_eq (a b : text) : text_eqb a b = true <-> a = b.
Proof.
  revert b; induction a as [|x a IH]; intros [|y b]; simpl;
    try (split; [discriminate | discriminate]); try tauto.
  rewrite andb_true_iff, N.eqb_eq, IH. split.
  - intros [-> ->]; reflexivity.
  - intros H; injection H as -> ->; split; reflexivity.
Qed.

Lemma text_eqb_refl (a : text) : text_eqb a a = true.
Proof. apply text_eqb_eq; reflexivity. Qed.

Lemma dict_get_set_same (V : Type) (k : text) (v : V) (d : dict V) :
  dict_get k (dict_set k v d) = Some v.
Proof.
  induction d as [|[k' v'] d IH]; simpl.
  - rewrite text_eqb_refl; reflexivity.
  - destruct (text_eqb k' k) eqn:E; simpl; rewrite E; auto.
Qed.

Lemma dict_get_set_other (V : Type) (k k0 : text) (v : V) (d : dict V) :
  k0 <> k -> dict_get k0 (dict_set k v d) = dict_get k0 d.
Proof.
  intros Hne. induction d as [|[k' v'] d IH]; simpl.
  - destruct (text_eqb k k0) eqn:E; [|reflexivity].
    apply text_eqb_eq in E; congruence.
  - destruct (text_eqb k' k) eqn:E; simpl.
    + destruct (text_eqb k' k0) eqn:E0; [|reflexivity].
      apply text_eqb_eq in E, E0; congruence.
    + rewrite IH; reflexivity.
Qed.

(** Storing twice under one key keeps the second value only. *)
Lemma dict_set_set (V : Type) (k : text) (v w : V) (d : dict V) :
  dict_set k w (dict_set k v d) = dict_set k w d.
Proof.
  induction d as [|[k' v'] d IH]; simpl.
  - rewrite text_eqb_refl; reflexivity.
  - destruct (text_eqb k' k) eqn:E; simpl; rewrite E; [reflexivity|].
    rewrite IH; reflexivity.
Qed.

(* ================================================================== *)
(** ** main.py: every method stops at its first line *)
(* ================================================================== *)

(** Every method of main.py that prints stops at its first line. *)
Lemma main_identify_technology_raises (html : text) (st : state) :
  Main.identify_technology html st = Raise (NoAttribute (py "info")) st.
Proof. reflexivity. Qed.

Lemma main_identify_backend_language_raises (html : text)
      (headers : HeaderMap) (st : state) :
  Main.identify_backend_language html headers st =
  Raise (NoAttribute (py "info")) st.
Proof. reflexivity. Qed.

Lemma main_detect_web_server_raises (server_info : text) (st : state) :
  Main.detect_web_server server_info st = Raise (NoAttribute (py "info")) st.
Proof. reflexivity. Qed.

Lemma main_run_raises (self : scanner) (net : fetched) (st : state) :
  Main.run self net st = Raise (NoAttribute (py "banner")) st.
Proof. reflexivity. Qed.

(** C1 (the code departs from the claim): [identify_technology] of
    main.py records nothing, for any body: [Messages] is the module there
    ([import Messages], main.py:5), so [Messages.info] at main.py:75
    raises [AttributeError] before any pattern is tried.  On the body
    ["django flask"], where the first matching label is Django, the
    method raises with the results and the console empty. *)
Theorem C1_basic_frontend_records_nothing :
  (forall html st,
      Main.identify_technology html st = Raise (NoAttribute (py "info")) st) /\
  (let o := Main.identify_technology (py "django flask") init in
   returns o = false /\
   results (final o) = [] /\
   dict_get (py "Frontend") (results (final o)) = None /\
   out (final o) = []) /\
  first_hit (fun _ p => matches p (py "django flask")) TECHNOLOGIES
    = Some (py "Django", Alt (word "csrfmiddlewaretoken") (word "django")).
Proof.
  split; [intros; apply main_identify_technology_raises|].
  split; [repeat split|]. vm_compute. reflexivity.
Qed.

(** C2 (the code departs from the claim): on the page of the claim, body
    [<meta name="generator" content="WordPress 6.0">] and header
    [Server: nginx/1.18.0], [run] of main.py raises [AttributeError] at
    [Messages.banner()] (main.py:107), before the fetch: the results stay
    empty and nothing is printed, with or without [--json].  The text
    that the pattern of WordPress finds in this body, which is what
    main.py:77-81 has for [detected_by], is [WordPress] as the body spells
    it.  (On the same page [run] of v2.py, for a URL that standard output
    can encode, ends with the web server alone.) *)
Theorem C2_scan_of_the_wordpress_page (self : scanner) :
  let o := Main.run self (Response wordpress_meta nginx_headers) init in
  o = Raise (NoAttribute (py "banner")) init /\
  returns o = false /\
  results (final o) = [] /\
  out (final o) = [] /\
  json_output (final o) = [] /\
  first_hit (fun _ p => matches p wordpress_meta) TECHNOLOGIES
    = Some (py "WordPress", Alt (word "wp-content") (word "wordpress")) /\
  option_map m_group
    (search (Alt (word "wp-content") (word "wordpress")) wordpress_meta)
    = Some (py "WordPress") /\
  (printable (url self) = true ->
   results (final (V2.run self (Response wordpress_meta nginx_headers) init))
   = [ (py "Web Server", VStr (py "nginx")) ]).
Proof.
  cbv zeta. rewrite main_run_raises.
  split; [reflexivity|]. split; [reflexivity|]. split; [reflexivity|].
  split; [reflexivity|]. split; [reflexivity|].
  split; [vm_compute; reflexivity|]. split; [vm_compute; reflexivity|].
  intros _.
  destruct self as [u [|] [|]]; vm_compute; reflexivity.
Qed.

Lemma C2_witness :
  printable (url example_scanner) = true /\
  results (final (Main.run example_scanner
                    (Response wordpress_meta nginx_headers) init)) = [] /\
  results (final (V2.run example_scanner
                    (Response wordpress_meta nginx_headers) init))
  = [ (py "Web Server", VStr (py "nginx")) ].
Proof.
  pose proof (C2_scan_of_the_wordpress_page example_scanner) as H.
  cbv zeta in H. destruct H as [_ [_ [R [_ [_ [_ [_ V]]]]]]].
  split; [reflexivity|]. split; [exact R | exact (V eq_refl)].
Defined.

(* ================================================================== *)
(** ** Matching ignores the case of ASCII letters *)
(* ================================================================== *)

Lemma lit_match_lower (p c : char) :
  lit_match p (if is_upper c then (c + 32)%N else c) = lit_match p c.
Proof.
  destruct (is_upper c) eqn:U; [|reflexivity].
  unfold is_upper in U. apply andb_true_iff in U as [U1 U2].
  apply N.leb_le in U1, U2.
  unfold lit_match, tolower.
  assert (Uc : is_upper c = true)
    by (unfold is_upper; apply andb_true_iff; split; apply N.leb_le; lia).
  assert (Uc' : is_upper (c + 32)%N = false)
    by (unfold is_upper; apply andb_false_iff; right; apply N.leb_gt; lia).
  rewrite Uc, Uc'.
  replace (c + 32 =? 304)%N with false by (symmetry; apply N.eqb_neq; lia).
  replace (c + 32 =? 8490)%N with false by (symmetry; apply N.eqb_neq; lia).
  replace (c + 32 =? 305)%N with false by (symmetry; apply N.eqb_neq; lia).
  replace (c + 32 =? 383)%N with false by (symmetry; apply N.eqb_neq; lia).
  replace (c =? 305)%N with false by (symmetry; apply N.eqb_neq; lia).
  replace (c =? 383)%N with false by (symmetry; apply N.eqb_neq; lia).
  destruct (is_upper p || is_lower p) eqn:L; [reflexivity|].
  apply orb_false_iff in L as [L1 L2]. unfold is_upper, is_lower in L1, L2.
  apply andb_false_iff in L1, L2.
  rewrite !N.leb_gt in L1, L2.
  replace (c + 32 =? p)%N with false by (symmetry; apply N.eqb_neq; lia).
  replace (c =? p)%N with false by (symmetry; apply N.eqb_neq; lia).
  reflexivity.
Qed.

Lemma rmatch_lower (r : regex) :
  forall (A B : Type) (s : text) (g g' : option text)
         (k : text -> option text -> option A)
         (k' : text -> option text -> option B),
    (forall rest g1 g2, is_some (k (lower_ascii rest) g1) = is_some (k' rest g2)) ->
    is_some (rmatch r (lower_ascii s) g k) = is_some (rmatch r s g' k').
Proof.
  induction r as [p| |r1 IH1 r2 IH2|r1 IH1 r2 IH2|r1 IH1]; intros A B s g g' k k' H.
  - destruct s as [|c s]; simpl; [reflexivity|].
    rewrite lit_match_lower. destruct (lit_match p c); [apply H | reflexivity].
  - destruct s as [|c s]; simpl; [reflexivity|].
    assert (E : ((if is_upper c then c + 32 else c) =? 10)%N = (c =? 10)%N).
    { destruct (is_upper c) eqn:U; [|reflexivity].
      unfold is_upper in U. apply andb_true_iff in U as [U1 U2].
      apply N.leb_le in U1, U2.
      transitivity false; [apply N.eqb_neq | symmetry; apply N.eqb_neq]; lia. }
    rewrite E. destruct (c =? 10)%N; [reflexivity | apply H].
  - simpl. apply IH1. intros rest g1 g2. apply IH2. exact H.
  - simpl.
    pose proof (IH1 A B s g g' k k' H) as E1.
    pose proof (IH2 A B s g g' k k' H) as E2.
    destruct (rmatch r1 (lower_ascii s) g k), (rmatch r1 s g' k');
      simpl in E1; try discriminate E1; try reflexivity; exact E2.
  - simpl. apply IH1. intros rest g1 g2. apply H.
Qed.

Lemma match_here_lower (r : regex) (s : text) :
  is_some (match_here r (lower_ascii s)) = is_some (match_here r s).
Proof. unfold match_here. apply rmatch_lower. intros; reflexivity. Qed.

Lemma matches_lower (r : regex) (s : text) :
  matches r (lower_ascii s) = matches r s.
Proof.
  unfold matches, search. generalize 0%Z.
  induction s as [|c s IH]; intros i.
  - reflexivity.
  - pose proof (match_here_lower r (c :: s)) as E.
    cbn [search_from]. change (lower_ascii (c :: s)) with
      ((if is_upper c then (c + 32)%N else c) :: lower_ascii s) in *.
    cbn [search_from].
    destruct (match_here r ((if is_upper c then (c + 32)%N else c)
                              :: lower_ascii s)) as [[t g]|],
             (match_here r (c :: s)) as [[t' g']|];
      simpl in E; try discriminate E; try reflexivity.
    apply IH.
Qed.

(* ================================================================== *)
(** ** The web-server detector *)
(* ================================================================== *)

Lemma detect_web_server_loop_spec (tbl : table) (server_info : text)
      (st : state) :
  exists logs,
    detect_web_server_loop tbl server_info st =
    Ok tt (mkState
             (match first_hit (fun _ p => matches p server_info) tbl with
              | Some e => dict_set (py "Web Server") (VStr (fst e)) (results st)
              | None => results st
              end)
             (out st ++ logs))
    /\ existsb is_json logs = false.
Proof.
  induction tbl as [|[server pattern] rest IH].
  - eexists. split; reflexivity.
  - unfold first_hit. cbn [detect_web_server_loop find fst snd].
    destruct (matches pattern server_info).
    + eexists. split; reflexivity.
    + exact IH.
Qed.

Lemma detect_web_server_spec (server_info : text) (st : state) :
  exists logs,
    detect_web_server server_info st =
    Ok tt (mkState (web_server_record server_info (results st))
                   (out st ++ logs))
    /\ existsb is_json logs = false.
Proof.
  unfold detect_web_server, bind, Messages.info, emit.
  match goal with |- context [detect_web_server_loop _ _ ?s] =>
    destruct (detect_web_server_loop_spec WEB_SERVERS server_info s)
      as [logs [E F]] end.
  rewrite E. cbn [results out]. rewrite <- app_assoc.
  eexists. split; [reflexivity|]. exact F.
Qed.

(** C7 (the code departs from the claim): [detect_web_server] of main.py
    fails for every value of the [Server] header: [Messages.info] at
    main.py:65 raises [AttributeError] on the module [Messages], before
    the table is gone through.  Nothing is recorded for
    ["nginx/1.18.0"], which the pattern of nginx matches, and the call
    fails also for ["Unknown"]; [fetch_website] of a verbose scanner
    (the default, and what [main] builds) fails the same way before the
    request. *)
Theorem C7_web_server_detector_of_main_py_fails :
  (forall server_info st,
      Main.detect_web_server server_info st =
      Raise (NoAttribute (py "info")) st) /\
  (let o := Main.detect_web_server (py "nginx/1.18.0") init in
   returns o = false /\ results (final o) = [] /\ out (final o) = []) /\
  matches (word "nginx") (py "nginx/1.18.0") = true /\
  returns (Main.detect_web_server (py "Unknown") init) = false /\
  (forall u j net st,
      Main.fetch_website (mkScanner u true j) net st =
      Raise (NoAttribute (py "info")) st).
Proof.
  split; [intros; apply main_detect_web_server_raises|].
  split; [repeat split|]. split; [reflexivity|]. split; [reflexivity|].
  intros u j net st. reflexivity.
Qed.

(* ================================================================== *)
(** ** main.py: the back-end detector *)
(* ================================================================== *)

(** C5 (the code departs from the claim): [identify_backend_language] of
    main.py records nothing, for any body and headers: [Messages.info] at
    main.py:87 raises [AttributeError] on the module [Messages], before
    the table is gone through.  With the headers
    [{"X-Powered-By": "PHP/8.1"}], where the pattern of PHP matches a
    header value, and an empty body the method raises with the results
    empty. *)
Theorem C5_basic_backend_records_nothing :
  (forall html headers st,
      Main.identify_backend_language html headers st =
      Raise (NoAttribute (py "info")) st) /\
  (let o := Main.identify_backend_language [] php_headers init in
   returns o = false /\
   results (final o) = [] /\
   dict_get (py "Backend Language") (results (final o)) = None /\
   out (final o) = []) /\
  labels BACKEND_LANGUAGES = [py "PHP"; py "Python"; py "Ruby"; py "Node.js"] /\
  existsb (matches (word "php")) (values php_headers) = true.
Proof.
  split; [intros; apply main_identify_backend_language_raises|].
  split; [repeat split|]. split; reflexivity.
Qed.

(* ================================================================== *)
(** ** [fetch_website] and [run] *)
(* ================================================================== *)

Lemma fetch_website_response (self : scanner) (body : text)
      (headers : HeaderMap) (st : state) :
  exists logs,
    fetch_website self (Response body headers) st =
    Ok (Some (body, headers))
       (mkState
          (dict_set (py "Web Server") (VStr (reported_server headers))
                    (results st))
          (out st ++ logs))
    /\ existsb is_json logs = false.
Proof.
  unfold fetch_website.
  match goal with |- context [detect_web_server ?s] =>
    change s with (server_of headers) end.
  unfold bind at 1.
  assert (W : forall m, exists l1,
             when (verbose self) (Messages.info m) st
             = Ok tt (mkState (results st) (out st ++ l1))
             /\ existsb is_json l1 = false).
  { intros m. destruct (verbose self).
    - eexists. split; reflexivity.
    - exists []. rewrite app_nil_r. destruct st; split; reflexivity. }
  destruct (W (py "Fetching content from " ++ url self)) as [l1 [E1 F1]].
  rewrite E1. clear W E1.
  unfold bind at 1.
  assert (W : exists l2,
             when (verbose self)
                  (Messages.success (py "Web Server: " ++ server_of headers))
                  (mkState (results st) (out st ++ l1))
             = Ok tt (mkState (results st) (out st ++ l1 ++ l2))
             /\ existsb is_json l2 = false).
  { destruct (verbose self).
    - exists [Log SUCCESS (py "Web Server: " ++ server_of headers)].
      unfold when, Messages.success, emit. cbn [results out].
      rewrite <- app_assoc. split; reflexivity.
    - exists []. rewrite app_nil_r. split; reflexivity. }
  destruct W as [l2 [E2 F2]]. rewrite E2. clear E2.
  unfold bind at 1. unfold set_result at 1. cbn [results out].
  unfold bind at 1.
  match goal with |- context [detect_web_server _ ?s] =>
    destruct (detect_web_server_spec (server_of headers) s)
      as [l3 [E3 F3]] end.
  rewrite E3. cbn [results out ret].
  exists (l1 ++ l2 ++ l3). split.
  - unfold web_server_record, reported_server.
    destruct (first_hit _ WEB_SERVERS); [rewrite dict_set_set|];
      rewrite <- !app_assoc; reflexivity.
  - rewrite !existsb_app, F1, F2, F3. reflexivity.
Qed.

Lemma run_with_failure (frontend : text -> M unit)
      (backend : text -> HeaderMap -> M unit)
      (self : scanner) (e : text) (st : state) :
  run_with frontend backend self (RequestException e) st =
  Ok tt (mkState (results st) (out st ++ abort_trace self e)).
Proof.
  unfold run_with, fetch_website, abort_trace.
  destruct (verbose self);
    unfold when, bind, ret, Messages.banner, Messages.info, Messages.warn,
      Messages.error, emit;
    cbn [results out]; rewrite <- !app_assoc; reflexivity.
Qed.

Lemma abort_trace_no_json (self : scanner) (e : text) :
  existsb is_json (abort_trace self e) = false.
Proof. unfold abort_trace. destruct (verbose self); reflexivity. Qed.

(** C8: when the fetch raises a [RequestException] (connection error,
    timeout, error status), [run] of v2.py reports the error, warns and
    returns: neither detector is run (the outcome is the same for any
    pair of detectors), the results are left as they were (empty for a
    fresh scanner) and nothing is printed as JSON, also with [--json].
    [run] of main.py never gets to a fetch, failed or not: it raises at
    [Messages.banner()]; no detection is recorded and no JSON printed
    there either, and its [fetch_website] ends a failed fetch with an
    [AttributeError].  (The URL and the error text are taken to be text
    that standard output can encode.) *)
Theorem C8_fetch_failure_aborts (self : scanner) (e : text) (st : state)
        (U : printable (url self) = true) (E : printable e = true) :
  V2.run self (RequestException e) st =
    Ok tt (mkState (results st) (out st ++ abort_trace self e)) /\
  (forall frontend backend,
      run_with frontend backend self (RequestException e) st =
      V2.run self (RequestException e) st) /\
  existsb is_json (abort_trace self e) = false /\
  results (final (V2.run self (RequestException e) init)) = [] /\
  json_output (final (V2.run self (RequestException e) init)) = [] /\
  Main.run self (RequestException e) st =
    Raise (NoAttribute (py "banner")) st /\
  results (final (Main.run self (RequestException e) init)) = [] /\
  json_output (final (Main.run self (RequestException e) init)) = [] /\
  Main.fetch_website self (RequestException e) st =
    Raise (NoAttribute (if verbose self then py "info" else py "error")) st.
Proof.
  unfold V2.run. rewrite !run_with_failure. rewrite !main_run_raises.
  split; [reflexivity|].
  split; [intros; apply run_with_failure|].
  split; [apply abort_trace_no_json|].
  unfold abort_trace, json_output.
  destruct self as [u [|] j]; repeat split.
Qed.

Lemma C8_witness :
  printable (url example_scanner) = true /\
  printable (py "timed out") = true /\
  results (final (V2.run example_scanner (RequestException (py "timed out"))
                    init)) = [] /\
  json_output (final (V2.run example_scanner
                        (RequestException (py "timed out")) init)) = [] /\
  out (final (V2.run example_scanner (RequestException (py "timed out")) init))
  = [ Banner;
      Log INFO (py "Starting scan for website: http://example.com");
      Log INFO (py "Fetching content from http://example.com");
      Log ERROR (py "Connection error: timed out");
      Log WARN (py "Failed to retrieve website content.") ].
Proof.
  pose proof (@C8_fetch_failure_aborts example_scanner (py "timed out") init
                eq_refl eq_refl) as H.
  destruct H as [T [_ [_ [R [J _]]]]].
  split; [reflexivity|]. split; [reflexivity|].
  split; [exact R|]. split; [exact J|]. rewrite T. reflexivity.
Defined.

Lemma run_with_empty_body (frontend : text -> M unit)
      (backend : text -> HeaderMap -> M unit)
      (self : scanner) (headers : HeaderMap) (st : state) :
  exists logs,
    run_with frontend backend self (Response [] headers) st =
    Ok tt (mkState
             (dict_set (py "Web Server") (VStr (reported_server headers))
                       (results st))
             (out st ++ logs ++
                [Log WARN (py "Failed to retrieve website content.")]))
    /\ existsb is_json logs = false.
Proof.
  unfold run_with.
  unfold bind at 1. unfold Messages.banner, emit at 1.
  unfold bind at 1. unfold Messages.info, emit at 1. cbn [results out].
  unfold bind at 1.
  match goal with |- context [fetch_website self _ ?s] =>
    destruct (fetch_website_response self [] headers s) as [logs [E F]] end.
  rewrite E. unfold Messages.warn, emit. cbn [results out].
  exists ([Banner] ++ [Log INFO (py "Starting scan for website: " ++ url self)]
            ++ logs).
  split.
  - rewrite <- !app_assoc. reflexivity.
  - rewrite !existsb_app, F. reflexivity.
Qed.

Lemma no_json_output (r : dict value) (l : list event) :
  existsb is_json l = false -> json_output (mkState r l) = [].
Proof.
  unfold json_output. cbn [out].
  induction l as [|[| |] l IH]; simpl; intros H; try discriminate; auto.
Qed.

Lemma run_with_empty_body_any (frontend frontend' : text -> M unit)
      (backend backend' : text -> HeaderMap -> M unit)
      (self : scanner) (headers : HeaderMap) (st : state) :
  run_with frontend backend self (Response [] headers) st =
  run_with frontend' backend' self (Response [] headers) st.
Proof.
  unfold run_with, bind, Messages.banner, Messages.info, emit.
  cbn [results out].
  match goal with |- context [fetch_website self _ ?s] =>
    destruct (fetch_website_response self [] headers s) as [logs [E _]] end.
  rewrite E. reflexivity.
Qed.

(** C10: when the fetch succeeds with an empty body, [run] of v2.py takes
    the branch of a failed fetch: it warns
    ["Failed to retrieve website content."] and returns; neither detector
    is run (the outcome is the same for any pair of detectors), so the
    results hold the web server only, and nothing is printed as JSON.
    The headers were at hand: on an empty body and the headers
    [{"X-Powered-By": "PHP/8.1"}] the back-end detector of v2.py, called
    by itself, records PHP.  [run] of main.py ends on an empty body as it
    does on a failed fetch too: it raises at [Messages.banner()], with no
    detection and no JSON.  (The URL is taken to be text that standard
    output can encode.) *)
Theorem C10_empty_body_aborts (self : scanner) (headers : HeaderMap)
        (U : printable (url self) = true) :
  let o := V2.run self (Response [] headers) init in
  let failed := Log WARN (py "Failed to retrieve website content.") in
  returns o = true /\
  results (final o) = [(py "Web Server", VStr (reported_server headers))] /\
  dict_get (py "Frontend") (results (final o)) = None /\
  dict_get (py "Backend Language") (results (final o)) = None /\
  json_output (final o) = [] /\
  last (out (final o)) Banner = failed /\
  (forall frontend backend,
      run_with frontend backend self (Response [] headers) init = o) /\
  (forall e,
      last (out (final (V2.run self (RequestException e) init))) Banner
      = failed) /\
  results (final (V2.identify_backend_language_with_context [] php_headers init)) =
    [ (py "Backend Language", detection (py "PHP") (py "Headers")) ] /\
  (forall e,
      Main.run self (Response [] headers) init =
      Main.run self (RequestException e) init) /\
  results (final (Main.run self (Response [] headers) init)) = [] /\
  json_output (final (Main.run self (Response [] headers) init)) = [].
Proof.
  cbv zeta. unfold V2.run.
  assert (Any : forall frontend backend,
             run_with frontend backend self (Response [] headers) init =
             run_with V2.identify_technology_with_context
                      V2.identify_backend_language_with_context
                      self (Response [] headers) init)
    by (intros; apply run_with_empty_body_any).
  destruct (run_with_empty_body V2.identify_technology_with_context
              V2.identify_backend_language_with_context self headers init)
    as [logs [E F]].
  rewrite E in *. cbn [returns final results out init app].
  split; [reflexivity|]. split; [reflexivity|].
  split; [reflexivity|]. split; [reflexivity|].
  split.
  { apply no_json_output. rewrite existsb_app, F. reflexivity. }
  split; [apply last_last|].
  split; [exact Any|].
  split.
  { intros e. rewrite run_with_failure. cbn [final out init app].
    unfold abort_trace. destruct (verbose self); reflexivity. }
  split; [reflexivity|].
  rewrite !main_run_raises. split; [intros; reflexivity|].
  split; reflexivity.
Qed.

Lemma C10_witness :
  printable (url example_scanner) = true /\
  (let o := V2.run example_scanner (Response [] php_headers) init in
   returns o = true /\
   results (final o) = [(py "Web Server", VStr (py "Unknown"))] /\
   json_output (final o) = []).
Proof.
  pose proof (@C10_empty_body_aborts example_scanner php_headers eq_refl) as H.
  cbv zeta in H. destruct H as [R [S [_ [_ [J _]]]]].
  split; [reflexivity|]. cbv zeta.
  split; [exact R|]. split; [exact S | exact J].
Defined.

(* ================================================================== *)
(** ** v2.py: the detectors with context *)
(* ================================================================== *)

Lemma validate_matches_spec (html tech : text) (found : list text)
      (st : state) :
  V2.validate_matches html tech found st =
  match first_valid html tech found with
  | Some m =>
      Ok true
         (mkState (dict_set (py "Frontend") (detection tech m) (results st))
                  (out st ++
                   [Log SUCCESS
                        (py "Detected Frontend: " ++ tech ++ py " (Context: "
                            ++ strip (V2.context_of html m) ++ py ")")]))
  | None => Ok false st
  end.
Proof.
  unfold first_valid.
  induction found as [|m found IH]; [reflexivity|].
  cbn [V2.validate_matches find].
  destruct (V2.is_valid_context (V2.context_of html m) tech);
    [reflexivity | exact IH].
Qed.

Lemma identify_technology_with_context_loop_spec (tbl : table) (html : text)
      (st : state) :
  exists logs,
    V2.identify_technology_loop tbl html st =
    Ok tt (mkState
             (match first_hit (frontend_hit_v2 html) tbl with
              | Some e =>
                  dict_set (py "Frontend") (frontend_record_v2 html e)
                           (results st)
              | None => results st
              end)
             (out st ++ logs))
    /\ existsb is_json logs = false.
Proof.
  induction tbl as [|[tech pattern] rest IH].
  - eexists. split; reflexivity.
  - change (first_hit (frontend_hit_v2 html) ((tech, pattern) :: rest))
      with (if frontend_hit_v2 html tech pattern then Some (tech, pattern)
            else first_hit (frontend_hit_v2 html) rest).
    cbn [V2.identify_technology_loop]. unfold bind.
    rewrite validate_matches_spec.
    unfold frontend_hit_v2 at 1.
    destruct (first_valid html tech (findall pattern html)) as [m|] eqn:V;
      cbn [is_some].
    + unfold frontend_record_v2. cbn [fst snd]. rewrite V.
      eexists. split; reflexivity.
    + exact IH.
Qed.

Lemma identify_technology_with_context_spec (html : text) (st : state) :
  exists logs,
    V2.identify_technology_with_context html st =
    Ok tt (mkState
             (match first_hit (frontend_hit_v2 html) TECHNOLOGIES with
              | Some e =>
                  dict_set (py "Frontend") (frontend_record_v2 html e)
                           (results st)
              | None => results st
              end)
             (out st ++ logs))
    /\ existsb is_json logs = false.
Proof.
  unfold V2.identify_technology_with_context, bind, Messages.info, emit.
  match goal with |- context [V2.identify_technology_loop _ _ ?s] =>
    destruct (identify_technology_with_context_loop_spec TECHNOLOGIES html s)
      as [logs [E F]] end.
  rewrite E. cbn [results out]. rewrite <- app_assoc.
  eexists. split; [reflexivity|]. exact F.
Qed.

Lemma next_matching_returns (p : regex) (headers : HeaderMap) (st : state) :
  header_hit headers p = true ->
  exists v, V2.next_matching p headers st = Ok v st.
Proof.
  unfold header_hit, values.
  induction headers as [|[k v] headers IH]; simpl; [discriminate|].
  destruct (matches p v); simpl; [eexists; reflexivity | exact IH].
Qed.

Lemma identify_backend_with_context_loop_spec (tbl : table) (html : text)
      (headers : HeaderMap) (st : state) :
  exists logs,
    V2.identify_backend_language_loop tbl html headers st =
    Ok tt (mkState
             (match first_hit (fun lang p => body_valid html lang p
                                             || header_hit headers p) tbl with
              | Some e =>
                  dict_set (py "Backend Language") (backend_record_v2 html e)
                           (results st)
              | None => results st
              end)
             (out st ++ logs))
    /\ existsb is_json logs = false.
Proof.
  induction tbl as [|[lang pattern] rest IH].
  - eexists. split; reflexivity.
  - change (first_hit (fun lang p => body_valid html lang p
                                     || header_hit headers p)
                      ((lang, pattern) :: rest))
      with (if body_valid html lang pattern || header_hit headers pattern
            then Some (lang, pattern)
            else first_hit (fun lang p => body_valid html lang p
                                          || header_hit headers p) rest).
    cbn [V2.identify_backend_language_loop].
    fold (header_hit headers pattern).
    unfold body_valid at 1.
    destruct (search pattern html) as [m|] eqn:S.
    + destruct (V2.is_valid_context (V2.context_at html m) lang) eqn:V;
        cbn [orb].
      * unfold backend_record_v2. cbn [fst snd]. rewrite S, V.
        eexists. split; reflexivity.
      * unfold bind at 1. unfold ret at 1.
        destruct (header_hit headers pattern) eqn:H; [|exact IH].
        destruct (next_matching_returns pattern headers st H) as [v E].
        unfold bind at 1. rewrite E.
        unfold backend_record_v2. cbn [fst snd]. rewrite S, V.
        eexists. split; reflexivity.
    + cbn [orb]. unfold bind at 1. unfold ret at 1.
      destruct (header_hit headers pattern) eqn:H; [|exact IH].
      destruct (next_matching_returns pattern headers st H) as [v E].
      unfold bind at 1. rewrite E.
      unfold backend_record_v2. cbn [fst snd]. rewrite S.
      eexists. split; reflexivity.
Qed.

Lemma identify_backend_with_context_spec (html : text) (headers : HeaderMap)
      (st : state) :
  exists logs,
    V2.identify_backend_language_with_context html headers st =
    Ok tt (mkState
             (match first_hit (fun lang p => body_valid html lang p
                                             || header_hit headers p)
                              BACKEND_LANGUAGES with
              | Some e =>
                  dict_set (py "Backend Language") (backend_record_v2 html e)
                           (results st)
              | None => results st
              end)
             (out st ++ logs))
    /\ existsb is_json logs = false.
Proof.
  unfold V2.identify_backend_language_with_context, bind, Messages.info, emit.
  match goal with |- context [V2.identify_backend_language_loop _ _ _ ?s] =>
    destruct (identify_backend_with_context_loop_spec BACKEND_LANGUAGES html
                headers s) as [logs [E F]] end.
  rewrite E. cbn [results out]. rewrite <- app_assoc.
  eexists. split; [reflexivity|]. exact F.
Qed.

(** A label without an entry in [related_keywords] validates no window. *)
Lemma is_valid_context_uncovered (context tech : text) :
  dict_get tech V2.related_keywords = None ->
  V2.is_valid_context context tech = false.
Proof. unfold V2.is_valid_context. intros ->. reflexivity. Qed.

Lemma backend_body_never_valid (html : text) (e : text * regex) :
  In e BACKEND_LANGUAGES ->
  body_valid html (fst e) (snd e) = false /\
  backend_record_v2 html e = detection (fst e) (py "Headers").
Proof.
  intros H.
  assert (U : forall context, V2.is_valid_context context (fst e) = false).
  { intros context. apply is_valid_context_uncovered.
    simpl in H. destruct H as [<-|[<-|[<-|[<-|[]]]]]; reflexivity. }
  unfold body_valid, backend_record_v2.
  destruct (search (snd e) html) as [m|]; [|split; reflexivity].
  rewrite U. split; reflexivity.
Qed.

Lemma first_hit_ext (f g : text -> regex -> bool) (t : table) :
  (forall e, In e t -> f (fst e) (snd e) = g (fst e) (snd e)) ->
  first_hit f t = first_hit g t.
Proof.
  unfold first_hit. induction t as [|e t IH]; intros H; [reflexivity|].
  cbn [find]. rewrite (H e (or_introl eq_refl)).
  destruct (g (fst e) (snd e)); [reflexivity|].
  apply IH. intros e' He'. apply H. right. exact He'.
Qed.

Lemma first_hit_some (f : text -> regex -> bool) (t : table) (e : text * regex) :
  first_hit f t = Some e -> In e t /\ f (fst e) (snd e) = true.
Proof. unfold first_hit. apply find_some. Qed.

(** v2.py's back-end detector never records from the body. *)
Lemma backend_with_context_headers_only (html : text) (headers : HeaderMap)
      (st : state) :
  results (final (V2.identify_backend_language_with_context html headers st)) =
  match first_hit (fun _ p => header_hit headers p) BACKEND_LANGUAGES with
  | Some e =>
      dict_set (py "Backend Language") (detection (fst e) (py "Headers"))
               (results st)
  | None => results st
  end.
Proof.
  destruct (identify_backend_with_context_spec html headers st)
    as [logs [E _]].
  rewrite E. cbn [final results].
  rewrite (@first_hit_ext
             (fun lang p => body_valid html lang p || header_hit headers p)
             (fun _ p => header_hit headers p) BACKEND_LANGUAGES).
  - destruct (first_hit (fun _ p => header_hit headers p) BACKEND_LANGUAGES)
      as [e|] eqn:F; [|reflexivity].
    apply first_hit_some in F as [I _].
    destruct (@backend_body_never_valid html e I) as [_ ->]. reflexivity.
  - intros e I. destruct (@backend_body_never_valid html e I) as [-> _].
    reflexivity.
Qed.

(** C4 (counterexample): for the headers [{"X-Powered-By": "PHP/8.1"}]
    the detection v2.py records has the two keys [name] and [detected_by]
    and no key [source]. *)
Lemma C4_record_has_no_source_key :
  exists d,
    dict_get (py "Backend Language")
      (results (final (V2.identify_backend_language_with_context
                         (py "x") php_headers init)))
    = Some (VDict d)
    /\ keys d = [py "name"; py "detected_by"]
    /\ dict_get (py "source") d = None.
Proof. eexists. vm_compute. repeat split. Qed.

(** C4 (amended): v2.py's back-end detector returns for every body and
    headers.  It stops at the first label of the table for which the first
    match in the body passes context validation or some header value
    matches; in the first case it stores [{"name": label, "detected_by":
    the stripped window}], otherwise, without context validation,
    [{"name": label, "detected_by": "Headers"}]; with no such label the
    results are left as they were.  The stored object has the keys [name]
    and [detected_by] and no key [source]. *)
Theorem C4_backend_with_context (html : text) (headers : HeaderMap)
        (st : state) :
  let o := V2.identify_backend_language_with_context html headers st in
  returns o = true /\
  results (final o) =
    match first_hit (fun lang p => body_valid html lang p
                                   || existsb (matches p) (values headers))
                    BACKEND_LANGUAGES with
    | Some (lang, p) =>
        dict_set (py "Backend Language")
          (match search p html with
           | Some m =>
               if V2.is_valid_context (V2.context_at html m) lang
               then VDict [ (py "name", lang);
                            (py "detected_by", strip (V2.context_at html m)) ]
               else VDict [ (py "name", lang);
                            (py "detected_by", py "Headers") ]
           | None => VDict [ (py "name", lang);
                             (py "detected_by", py "Headers") ]
           end)
          (results st)
    | None => results st
    end /\
  labels BACKEND_LANGUAGES = [py "PHP"; py "Python"; py "Ruby"; py "Node.js"] /\
  results (final (V2.identify_backend_language_with_context
                    (py "x") php_headers init)) =
    [ (py "Backend Language",
       VDict [ (py "name", py "PHP"); (py "detected_by", py "Headers") ]) ].
Proof.
  cbv zeta.
  destruct (identify_backend_with_context_spec html headers st)
    as [logs [E _]].
  rewrite E. cbn [returns final results].
  split; [reflexivity|]. split.
  { unfold header_hit.
    destruct (first_hit _ BACKEND_LANGUAGES) as [[lang p]|]; reflexivity. }
  split; reflexivity.
Qed.

(** C6 (counterexample): [related_keywords] does not cover 3 of the
    front-end labels. *)
Lemma C6_covered_frontend_labels_not_3 :
  List.length (covered TECHNOLOGIES) <> 3.
Proof. vm_compute. discriminate. Qed.

(** C6 (amended): [related_keywords] covers exactly 4 of the 10 front-end
    labels (WordPress, Django, Flask, React) and none of the back-end
    labels.  A label without an entry never passes context validation:
    no window validates for it, the front-end detector of v2.py never
    records it, whatever the body, and the back-end detector records from
    the header values only, the same for every body. *)
Theorem C6_uncovered_labels_never_validate (tech : text)
        (H : dict_get tech V2.related_keywords = None) :
  List.length (labels TECHNOLOGIES) = 10 /\
  covered TECHNOLOGIES = [py "WordPress"; py "Django"; py "Flask"; py "React"] /\
  covered BACKEND_LANGUAGES = [] /\
  (forall context, V2.is_valid_context context tech = false) /\
  (forall html,
      recorded_name (py "Frontend")
        (results (final (V2.identify_technology_with_context html init)))
      <> Some tech) /\
  (forall html headers st,
      results (final (V2.identify_backend_language_with_context html headers st)) =
      match first_hit (fun _ p => existsb (matches p) (values headers))
                      BACKEND_LANGUAGES with
      | Some (lang, _) =>
          dict_set (py "Backend Language") (detection lang (py "Headers"))
                   (results st)
      | None => results st
      end).
Proof.
  split; [reflexivity|]. split; [reflexivity|]. split; [reflexivity|].
  split; [intros; apply is_valid_context_uncovered; exact H|].
  split.
  - intros html.
    destruct (identify_technology_with_context_spec html init) as [logs [E _]].
    rewrite E. cbn [final results init].
    destruct (first_hit _ TECHNOLOGIES) as [e|] eqn:F; [|discriminate].
    apply first_hit_some in F as [_ F].
    unfold frontend_hit_v2, first_valid in F.
    destruct (find _ (findall (snd e) html)) as [m|] eqn:V; [|discriminate].
    apply find_some in V as [_ V].
    unfold recorded_name, frontend_record_v2, detection.
    rewrite (@dict_get_set_same _ _ _ []).
    change (dict_get (py "name") _) with (Some (fst e)).
    intros Heq. injection Heq as Heq. subst tech.
    rewrite (@is_valid_context_uncovered _ _ H) in V. discriminate.
  - intros html headers st. rewrite backend_with_context_headers_only.
    unfold header_hit.
    destruct (first_hit _ BACKEND_LANGUAGES) as [[lang p]|]; reflexivity.
Qed.

(** The label Vue.js has no entry in [related_keywords]. *)
Lemma C6_witness_vuejs :
  dict_get (py "Vue.js") V2.related_keywords = None /\
  forall context, V2.is_valid_context context (py "Vue.js") = false.
Proof.
  split; [reflexivity|].
  apply (C6_uncovered_labels_never_validate (py "Vue.js")). reflexivity.
Defined.

Lemma find_from_lower_bound (sub s : text) (i : Z) :
  (0 <= i -> -1 <= find_from sub s i)%Z.
Proof.
  revert i. induction s as [|c s IH]; intros i Hi; simpl.
  - destruct (startswith sub []); lia.
  - destruct (startswith sub (c :: s)); [lia|]. apply IH. lia.
Qed.

(** The window of the front-end detector holds at most 100 characters,
    the matched string included. *)
Lemma context_of_length (html match_ : text) :
  (List.length (V2.context_of html match_) <= 100)%nat.
Proof.
  unfold V2.context_of, slice.
  etransitivity; [apply firstn_le_length|].
  pose proof (@find_from_lower_bound match_ html 0%Z ltac:(lia)) as B.
  unfold str_find, slice_index.
  set (f := find_from match_ html 0) in *.
  destruct (Z.ltb_spec (Z.max 0 (f - 50)) 0);
    destruct (Z.ltb_spec (f + 50) 0); lia.
Qed.

(** C3 (the code departs from the claim): the window
    [identify_technology_with_context] validates is
    [html[max(0, html.find(match) - 50):html.find(match) + 50]]: it is
    placed at the FIRST occurrence of the matched string and ends 50
    characters after the START of that occurrence, so it never holds more
    than 100 characters.  In [react_twice] the second match of React has
    [jsx] within the 50 characters before it, but both matches are
    validated on the window of the first one and nothing is recorded.  In
    [react_then_jsx] the keyword [jsx] lies within 50 characters after
    the end of the match, but after the end of the window, and nothing is
    recorded.  The two bodies of the claim behave as it says. *)
Theorem C3_window_at_first_occurrence :
  (forall html match_,
      V2.context_of html match_ =
      slice html (Z.max 0 (str_find html match_ - 50))
                 (str_find html match_ + 50)
      /\ (List.length (V2.context_of html match_) <= 100)%nat) /\
  findall react_pattern react_twice = [py "react"; py "react"] /\
  match_here react_pattern (skipn 69 react_twice) = Some (py "react", None) /\
  contains (py "jsx") (slice react_twice (Z.max 0 (69 - 50)) (69 + 5 + 50))
    = true /\
  contains (py "jsx") (slice react_twice (Z.max 0 (69 - 50)) (69 + 50))
    = true /\
  V2.context_of react_twice (py "react") = py "react" ++ spaces 45 /\
  results (final (V2.identify_technology_with_context react_twice init)) = [] /\
  contains (py "jsx") (slice react_then_jsx (Z.max 0 (0 - 50)) (0 + 5 + 50))
    = true /\
  V2.context_of react_then_jsx (py "react") = py "react" ++ spaces 45 /\
  results (final (V2.identify_technology_with_context react_then_jsx init))
    = [] /\
  results (final (V2.identify_technology_with_context (py "react") init))
    = [] /\
  results (final (V2.identify_technology_with_context
                    (py "xx jsx yy react zz") init))
    = [(py "Frontend", detection (py "React") (py "react"))].
Proof.
  split.
  - intros html match_. split; [reflexivity | apply context_of_length].
  - vm_compute. repeat split.
Qed.

(* ================================================================== *)
(** ** [run] after a successful fetch *)
(* ================================================================== *)

Lemma all_reportable_set (k : text) (v : value) (r : dict value) :
  reportable v = true -> all_reportable r = true ->
  all_reportable (dict_set k v r) = true.
Proof.
  unfold all_reportable. intros Hv.
  induction r as [|[k' v'] r IH]; simpl; intros Hr.
  - rewrite Hv. reflexivity.
  - apply andb_true_iff in Hr as [H1 H2].
    destruct (text_eqb k' k); simpl.
    + rewrite Hv, H2. reflexivity.
    + rewrite H1, IH by exact H2. reflexivity.
Qed.

Lemma extends_keeps (k k0 : text) (r r' : dict value) :
  k0 <> k -> all_reportable r = true -> extends k r r' ->
  all_reportable r' = true /\ dict_get k0 r' = dict_get k0 r.
Proof.
  intros Hne Hr [->|[v [Hv ->]]].
  - split; [exact Hr | reflexivity].
  - split; [apply all_reportable_set; assumption|].
    apply dict_get_set_other. exact Hne.
Qed.

Lemma report_items_spec (items : dict value) (st : state) :
  all_reportable items = true ->
  exists logs,
    report_items items st = Ok tt (mkState (results st) (out st ++ logs))
    /\ existsb is_json logs = false.
Proof.
  unfold all_reportable. revert st.
  induction items as [|[key [v|d]] items IH]; intros st H.
  - exists []. rewrite app_nil_r. destruct st; split; reflexivity.
  - simpl in H. cbn [report_items].
    unfold bind at 1. unfold Messages.success, emit.
    match goal with |- context [report_items items ?s] =>
      destruct (IH s H) as [logs [E F]] end.
    rewrite E. cbn [results out]. rewrite <- app_assoc.
    eexists. split; [reflexivity|]. exact F.
  - simpl in H. apply andb_true_iff in H as [Hd H].
    apply andb_true_iff in Hd as [Hn Hb].
    cbn [report_items]. unfold subscript.
    destruct (dict_get (py "name") d) as [name|]; [|discriminate].
    destruct (dict_get (py "detected_by") d) as [by_|]; [|discriminate].
    unfold bind at 1. unfold ret at 1.
    unfold bind at 1. unfold ret at 1.
    unfold bind at 1. unfold Messages.success, emit.
    match goal with |- context [report_items items ?s] =>
      destruct (IH s H) as [logs [E F]] end.
    rewrite E. cbn [results out]. rewrite <- app_assoc.
    eexists. split; [reflexivity|]. exact F.
Qed.

Lemma report_spec (self : scanner) (st : state) :
  all_reportable (results st) = true ->
  exists logs,
    report self st =
    Ok tt (mkState (results st)
             (out st ++ logs
                ++ (if output_json self then [PrintJson (results st)] else [])
                ++ [Log INFO (py "Scan completed.")]))
    /\ existsb is_json logs = false.
Proof.
  destruct st as [r o]. cbn [results out]. intros H. unfold report.
  unfold bind at 1. unfold get_results at 1. cbn [results].
  assert (R : exists logs,
             match r with
             | [] => Messages.warn (py "No technologies detected.")
             | _ :: _ =>
                 Messages.info (py "Scan results:") ;;
                 report_items r
             end (mkState r o) = Ok tt (mkState r (o ++ logs))
             /\ existsb is_json logs = false).
  { destruct r as [|kv r].
    - eexists. split; reflexivity.
    - unfold bind, Messages.info, emit.
      match goal with |- context [report_items _ ?s] =>
        destruct (@report_items_spec (kv :: r) s H) as [logs [E F]] end.
      rewrite E. cbn [results out]. rewrite <- app_assoc.
      eexists. split; [reflexivity|]. exact F. }
  destruct R as [logs [E F]].
  unfold bind at 1. rewrite E.
  unfold bind at 1. unfold get_results at 1. cbn [results].
  exists logs. split; [|exact F].
  unfold bind, when, Messages.info, emit, ret.
  destruct (output_json self); cbn [results out];
    rewrite <- !app_assoc; reflexivity.
Qed.

Lemma identify_technology_with_context_detector (html : text) :
  detector (py "Frontend") (V2.identify_technology_with_context html).
Proof.
  intros st.
  destruct (identify_technology_with_context_spec html st) as [logs [E F]].
  rewrite E. do 2 eexists. split; [reflexivity|]. split; [exact F|].
  destruct (first_hit _ TECHNOLOGIES) as [e|]; [|left; reflexivity].
  right. eexists. split; [|reflexivity]. reflexivity.
Qed.

Lemma identify_backend_with_context_detector (html : text)
      (headers : HeaderMap) :
  detector (py "Backend Language")
           (V2.identify_backend_language_with_context html headers).
Proof.
  intros st.
  destruct (identify_backend_with_context_spec html headers st)
    as [logs [E F]].
  rewrite E. do 2 eexists. split; [reflexivity|]. split; [exact F|].
  destruct (first_hit _ BACKEND_LANGUAGES) as [e|]; [|left; reflexivity].
  right. eexists. split; [|reflexivity].
  unfold backend_record_v2.
  destruct (search (snd e) html) as [m|]; [|reflexivity].
  destruct (V2.is_valid_context _ _); reflexivity.
Qed.

Lemma json_output_report (r : dict value) (logs : list event) (json : bool) :
  existsb is_json logs = false ->
  json_output
    (mkState r (logs ++ (if json then [PrintJson r] else [])
                     ++ [Log INFO (py "Scan completed.")]))
  = if json then [r] else [].
Proof.
  intros H. unfold json_output. cbn [out].
  rewrite !flat_map_app.
  pose proof (@no_json_output r logs H) as E. unfold json_output in E.
  cbn [out] in E. rewrite E. destruct json; reflexivity.
Qed.

Section Run.

Variable frontend : text -> M unit.
Variable backend : text -> HeaderMap -> M unit.
Hypothesis frontend_detector :
  forall html, detector (py "Frontend") (frontend html).
Hypothesis backend_detector :
  forall html hs, detector (py "Backend Language") (backend html hs).

(** After a successful fetch with a body that is not empty, [run] goes
    through both detectors and the report. *)
Lemma run_with_body (self : scanner) (body : text) (headers : HeaderMap) :
  body <> [] ->
  exists r logs,
    run_with frontend backend self (Response body headers) init =
    Ok tt (mkState r
             (logs ++ (if output_json self then [PrintJson r] else [])
                   ++ [Log INFO (py "Scan completed.")]))
    /\ existsb is_json logs = false
    /\ dict_get (py "Web Server") r = Some (VStr (reported_server headers)).
Proof.
  intros Hbody. unfold run_with.
  unfold bind at 1. unfold Messages.banner, emit at 1.
  unfold bind at 1. unfold Messages.info, emit at 1. cbn [results out].
  unfold bind at 1.
  match goal with |- context [fetch_website self _ ?s] =>
    destruct (fetch_website_response self body headers s) as [l0 [E0 F0]] end.
  rewrite E0. clear E0. cbn [results out init app].
  destruct body as [|c body]; [congruence|].
  unfold bind at 1.
  match goal with |- context [frontend _ ?s] =>
    destruct (frontend_detector (c :: body) s) as [r1 [l1 [E1 [F1 X1]]]] end.
  rewrite E1. clear E1. cbn [results out] in *.
  unfold bind at 1.
  match goal with |- context [backend _ _ ?s] =>
    destruct (backend_detector (c :: body) headers s)
      as [r2 [l2 [E2 [F2 X2]]]] end.
  rewrite E2. clear E2. cbn [results out] in *.
  assert (W0 : all_reportable
                 [(py "Web Server", VStr (reported_server headers))] = true)
    by reflexivity.
  assert (G0 : dict_get (py "Web Server")
                 [(py "Web Server", VStr (reported_server headers))]
               = Some (VStr (reported_server headers))) by reflexivity.
  destruct (@extends_keeps (py "Frontend") (py "Web Server") _ _
              ltac:(discriminate) W0 X1) as [W1 G1].
  destruct (@extends_keeps (py "Backend Language") (py "Web Server") _ _
              ltac:(discriminate) W1 X2) as [W2 G2].
  match goal with |- context [report self ?s] =>
    destruct (@report_spec self s W2) as [l3 [E3 F3]] end.
  rewrite E3. cbn [results out].
  exists r2, (((([Banner]
                 ++ [Log INFO (py "Starting scan for website: " ++ url self)])
                ++ l0) ++ l1) ++ l2 ++ l3).
  split; [rewrite <- !app_assoc; reflexivity|].
  split; [rewrite !existsb_app, F0, F1, F2, F3; reflexivity|].
  rewrite G2, G1. exact G0.
Qed.

(** What [run] leaves after a successful fetch. *)
Lemma run_with_response (self : scanner) (body : text) (headers : HeaderMap) :
  let o := run_with frontend backend self (Response body headers) init in
  returns o = true /\
  dict_get (py "Web Server") (results (final o))
    = Some (VStr (reported_server headers)) /\
  json_output (final o) =
    match body with
    | [] => []
    | _ :: _ => if output_json self then [results (final o)] else []
    end.
Proof.
  cbv zeta. destruct body as [|c body].
  - destruct (run_with_empty_body frontend backend self headers init)
      as [logs [E F]].
    rewrite E. cbn [returns final results out init app].
    split; [reflexivity|]. split; [reflexivity|].
    apply no_json_output. rewrite existsb_app, F. reflexivity.
  - destruct (@run_with_body self (c :: body) headers ltac:(discriminate))
      as [r [logs [E [F G]]]].
    rewrite E. cbn [returns final results].
    split; [reflexivity|]. split; [exact G|].
    apply json_output_report. exact F.
Qed.

End Run.


(* ================================================================== *)
(** ** Further properties: what the matcher finds *)
(* ================================================================== *)

Lemma lit_match_refl (p : char) : lit_match p p = true.
Proof.
  unfold lit_match. destruct (is_upper p || is_lower p).
  - rewrite N.eqb_refl. reflexivity.
  - apply N.eqb_refl.
Qed.

(** A literal matches every character with the same ASCII lower case. *)
Lemma lit_match_same_lower (p c : char) :
  (if is_upper c then (c + 32)%N else c) =
  (if is_upper p then (p + 32)%N else p) ->
  lit_match p c = true.
Proof.
  intros H. rewrite <- (lit_match_refl p).
  rewrite <- (lit_match_lower p c), <- (lit_match_lower p p).
  f_equal. exact H.
Qed.

Lemma rmatch_word (A : Type) (t : text) :
  forall (c : char) (mid post : text) (g : option text)
         (k : text -> option text -> option A),
    lower_ascii mid = lower_ascii (c :: t) ->
    rmatch (word_from c t) (mid ++ post) g k = k post g.
Proof.
  induction t as [|d t IH]; intros c mid post g k H.
  - destruct mid as [|x [|y mid]]; try discriminate H.
    injection H as H. simpl. rewrite (lit_match_same_lower _ _ H). reflexivity.
  - destruct mid as [|x mid]; try discriminate H.
    injection H as H1 H2. cbn [word_from rmatch app].
    rewrite (lit_match_same_lower _ _ H1). apply IH. exact H2.
Qed.

Lemma search_from_finds (r : regex) (pre s : text) :
  forall i, is_some (match_here r s) = true ->
            is_some (search_from r (pre ++ s) i) = true.
Proof.
  induction pre as [|a pre IH]; intros i H.
  - cbn [app]. destruct s as [|c s]; cbn [search_from];
      destruct (match_here r _) as [[t g]|]; try discriminate H; reflexivity.
  - cbn [app search_from].
    destruct (match_here r (a :: pre ++ s)) as [[t g]|]; [reflexivity|].
    apply IH. exact H.
Qed.

(** A word of a pattern is found in every subject that holds it in some
    ASCII letter case. *)
Lemma matches_word_substring (c : char) (t pre mid post : text) :
  lower_ascii mid = lower_ascii (c :: t) ->
  matches (word_from c t) (pre ++ mid ++ post) = true.
Proof.
  intros H.
  assert (S : is_some (search (word_from c t) (pre ++ mid ++ post)) = true).
  { unfold search. apply search_from_finds. unfold match_here.
    rewrite rmatch_word by exact H. reflexivity. }
  unfold matches. destruct (search _ _); [reflexivity | discriminate S].
Qed.

(** X1: a [Server] value that holds [nginx], in any ASCII letter case and
    anywhere in the value, is recorded as the label [nginx], by
    [detect_web_server] of v2.py and so by its [fetch_website] (for a URL
    that standard output can encode). *)
Theorem X1_nginx_anywhere_in_server_value
        (pre mid post : text) (H : lower_ascii mid = py "nginx") :
  (forall st,
      results (final (detect_web_server (pre ++ mid ++ post) st)) =
      dict_set (py "Web Server") (VStr (py "nginx")) (results st)) /\
  (forall self body name others st,
      printable (url self) = true ->
      lower_ascii name = py "server" ->
      dict_get (py "Web Server")
        (results (final (fetch_website self
                           (Response body ((name, pre ++ mid ++ post) :: others))
                           st)))
      = Some (VStr (py "nginx"))).
Proof.
  assert (M : matches (word "nginx") (pre ++ mid ++ post) = true)
    by (apply (@matches_word_substring 110%N (py "ginx")); exact H).
  assert (F : first_hit (fun _ p => matches p (pre ++ mid ++ post)) WEB_SERVERS
              = Some (py "nginx", word "nginx")).
  { unfold first_hit, WEB_SERVERS. cbn [find fst snd]. rewrite M. reflexivity. }
  split.
  - intros st. destruct (detect_web_server_spec (pre ++ mid ++ post) st)
      as [logs [E _]].
    rewrite E. cbn [final results]. unfold web_server_record. rewrite F.
    reflexivity.
  - intros self body name others st _ Hn.
    destruct (fetch_website_response self body
                ((name, pre ++ mid ++ post) :: others) st) as [logs [E _]].
    rewrite E. cbn [final results]. rewrite dict_get_set_same.
    unfold reported_server, server_of. cbn [headers_get].
    rewrite Hn. change (lower_ascii (py "Server")) with (py "server").
    rewrite text_eqb_refl, F. reflexivity.
Qed.

Lemma X1_witness :
  lower_ascii (py "NgInX") = py "nginx" /\
  results (final (detect_web_server
                    (py "My-" ++ py "NgInX" ++ py "/1.0") init)) =
  dict_set (py "Web Server") (VStr (py "nginx")) (results init) /\
  printable (url example_scanner) = true /\
  lower_ascii (py "SERVER") = py "server" /\
  dict_get (py "Web Server")
    (results (final (fetch_website example_scanner
                       (Response []
                          [(py "SERVER", py "My-" ++ py "NgInX" ++ py "/1.0")])
                       init)))
  = Some (VStr (py "nginx")).
Proof.
  destruct (X1_nginx_anywhere_in_server_value (py "My-") (py "NgInX")
              (py "/1.0") eq_refl) as [A B].
  split; [reflexivity|]. split; [apply A|]. split; [reflexivity|].
  split; [reflexivity|]. apply B; reflexivity.
Defined.

(* ================================================================== *)
(** ** Further properties: the front-end detector of v2.py *)
(* ================================================================== *)

Lemma startswith_firstn_inv (sub : text) :
  forall n s, startswith sub (firstn n s) = true -> startswith sub s = true.
Proof.
  induction sub as [|x sub IH]; intros n s H; [destruct s; reflexivity|].
  destruct n as [|n], s as [|c s]; simpl in H; try discriminate H.
  apply andb_true_iff in H as [H1 H2]. simpl.
  rewrite H1. apply (IH n). exact H2.
Qed.

Lemma contains_firstn (sub : text) (n : nat) (s : text) :
  contains sub (firstn n s) = true -> contains sub s = true.
Proof.
  revert n. induction s as [|c s IH]; intros n H.
  - rewrite firstn_nil in H. exact H.
  - destruct n as [|n].
    + cbn [firstn contains] in H. rewrite orb_false_r in H.
      destruct sub; [reflexivity | discriminate H].
    + cbn [firstn] in H. cbn [contains] in *.
      apply orb_true_iff in H as [H|H].
      * apply (startswith_firstn_inv sub (S n) (c :: s)) in H.
        rewrite H. reflexivity.
      * rewrite (IH n H). apply orb_true_r.
Qed.

Lemma contains_skipn (sub : text) (k : nat) (s : text) :
  contains sub (skipn k s) = true -> contains sub s = true.
Proof.
  revert k. induction s as [|c s IH]; intros k H.
  - rewrite skipn_nil in H. exact H.
  - destruct k as [|k]; [exact H|].
    cbn [skipn] in H. cbn [contains]. rewrite (IH k H). apply orb_true_r.
Qed.

(** What is found in a slice is found in the string. *)
Lemma contains_slice (sub s : text) (a b : Z) :
  contains sub (slice s a b) = true -> contains sub s = true.
Proof.
  unfold slice. intros H.
  apply contains_firstn in H. apply contains_skipn in H. exact H.
Qed.

(** X4: on a body that standard output can encode, the front-end detector
    of v2.py returns.  It stops at the first label of the table that has,
    among the strings of [findall], one whose window validates, and stores
    that label with the first such string as [detected_by]; the next
    label is tried only when no string of the label validates, and when
    none does for any label the results are left as they were. *)
Theorem X4_frontend_with_context_first_validated
        (html : text) (st : state) (H : printable html = true) :
  let o := V2.identify_technology_with_context html st in
  let validated tech p :=
    find (fun m => V2.is_valid_context (V2.context_of html m) tech)
         (findall p html) in
  returns o = true /\
  results (final o) =
    match first_hit (fun tech p => is_some (validated tech p)) TECHNOLOGIES with
    | Some (tech, p) =>
        match validated tech p with
        | Some m =>
            dict_set (py "Frontend")
                     (VDict [(py "name", tech); (py "detected_by", m)])
                     (results st)
        | None => results st
        end
    | None => results st
    end.
Proof.
  cbv zeta.
  destruct (identify_technology_with_context_spec html st) as [logs [E _]].
  rewrite E. cbn [returns final results]. split; [reflexivity|].
  change (first_hit (fun tech p => is_some (find _ (findall p html))) TECHNOLOGIES)
    with (first_hit (frontend_hit_v2 html) TECHNOLOGIES).
  destruct (first_hit (frontend_hit_v2 html) TECHNOLOGIES) as [[tech p]|] eqn:F;
    [|reflexivity].
  apply first_hit_some in F as [_ F]. cbn [fst snd] in F.
  unfold frontend_hit_v2, first_valid in F.
  unfold frontend_record_v2, first_valid. cbn [fst snd].
  destruct (find _ (findall p html)); [reflexivity | discriminate F].
Qed.

Lemma X4_witness :
  printable (py "flask-session=1; react") = true /\
  results (final (V2.identify_technology_with_context
                    (py "flask-session=1; react") init)) =
  [ (py "Frontend", detection (py "Flask") (py "flask-session")) ].
Proof.
  split; [reflexivity|].
  destruct (@X4_frontend_with_context_first_validated
              (py "flask-session=1; react") init eq_refl) as [_ E].
  rewrite E. reflexivity.
Defined.

(** X5: the front-end detector of v2.py records a label only when one of
    the keywords of that label stands in the body, letter for letter
    (the keywords are compared with their case). *)
Theorem X5_frontend_with_context_needs_keyword
        (html tech by_ : text)
        (H : dict_get (py "Frontend")
               (results (final (V2.identify_technology_with_context html init)))
             = Some (detection tech by_)) :
  exists keywords keyword,
    dict_get tech V2.related_keywords = Some keywords /\
    In keyword keywords /\
    contains keyword html = true.
Proof.
  destruct (identify_technology_with_context_spec html init) as [logs [E _]].
  rewrite E in H. cbn [final results init] in H.
  destruct (first_hit _ TECHNOLOGIES) as [[l p]|] eqn:F; [|discriminate H].
  rewrite (@dict_get_set_same _ _ _ []) in H.
  apply first_hit_some in F as [_ F]. cbn [fst snd] in F.
  unfold frontend_record_v2 in H. cbn [fst snd] in H.
  unfold frontend_hit_v2, first_valid in F.
  unfold first_valid in H.
  destruct (find _ (findall p html)) as [m|] eqn:V; [|discriminate F].
  injection H as <- <-.
  apply find_some in V as [_ V].
  unfold V2.is_valid_context in V.
  destruct (dict_get l V2.related_keywords) as [ks|]; [|discriminate V].
  apply existsb_exists in V as [kw [I C]].
  exists ks, kw. split; [reflexivity|]. split; [exact I|].
  unfold V2.context_of in C. apply contains_slice in C. exact C.
Qed.

Lemma X5_witness :
  dict_get (py "Frontend")
    (results (final (V2.identify_technology_with_context
                       (py "xx jsx yy react zz") init)))
  = Some (detection (py "React") (py "react")) /\
  exists keywords keyword,
    dict_get (py "React") V2.related_keywords = Some keywords /\
    In keyword keywords /\
    contains keyword (py "xx jsx yy react zz") = true.
Proof.
  split; [reflexivity|].
  apply (@X5_frontend_with_context_needs_keyword (py "xx jsx yy react zz")
           (py "React") (py "react")).
  reflexivity.
Defined.

(* ================================================================== *)
(** ** Further properties: the console of [run] *)
(* ================================================================== *)

Lemma keeps_ret (A : Type) (P : state -> Prop) (a : A) : keeps P (ret a).
Proof. intros st H. exact H. Qed.

Lemma triple_bind (A B : Type) (P : state -> Prop) (m : M A) (f : A -> M B)
      (Q1 : A -> state -> Prop) (Q : B -> state -> Prop) (E : state -> Prop) :
  triple P m Q1 E -> (forall a, triple (Q1 a) (f a) Q E) ->
  triple P (bind m f) Q E.
Proof.
  intros Hm Hf st H. unfold bind. specialize (Hm st H).
  destruct (m st) as [a st'|e st']; [apply (Hf a st' Hm) | exact Hm].
Qed.

Lemma keeps_bind (A B : Type) (P : state -> Prop) (m : M A) (f : A -> M B) :
  keeps P m -> (forall a, keeps P (f a)) -> keeps P (bind m f).
Proof. intros Hm Hf. apply triple_bind with (Q1 := fun _ => P); assumption. Qed.

Lemma keeps_emit_line (e : event) :
  is_no_technologies e = false -> keeps never_empty_line (emit e).
Proof.
  intros He st H. unfold never_empty_line in *. cbn [emit out].
  rewrite existsb_app, H. simpl. rewrite He. reflexivity.
Qed.

Lemma keeps_emit_result (e : event) :
  is_no_technologies e = false -> keeps some_result (emit e).
Proof.
  intros He st [H R]. split; [|exact R].
  apply (@keeps_emit_line e He st H).
Qed.

Lemma dict_set_not_empty (V : Type) (k : text) (v : V) (d : dict V) :
  dict_set k v d <> [].
Proof. destruct d as [|[k' v'] d]; simpl; [|destruct (text_eqb k' k)]; discriminate. Qed.

Lemma keeps_set_result (k : text) (v : value) :
  keeps some_result (set_result k v).
Proof.
  intros st [H R]. split; [exact H|]. cbn [results]. apply dict_set_not_empty.
Qed.

Ltac keep :=
  repeat match goal with
    | |- triple ?P ?m (fun _ => ?P) ?P => change (keeps P m)
    | |- keeps _ (ret _) => apply keeps_ret
    | |- keeps _ (set_result _ _) => apply keeps_set_result
    | |- keeps some_result (emit _) => apply keeps_emit_result; reflexivity
    | |- keeps never_empty_line (emit _) => apply keeps_emit_line; reflexivity
    | |- keeps _ (bind _ _) => apply keeps_bind; [|intros ?]
    | |- keeps _ (when _ _) => unfold when
    | |- keeps _ (if ?b then _ else _) => destruct b
    | |- keeps _ (Messages.info _) => unfold Messages.info
    | |- keeps _ (Messages.warn _) => unfold Messages.warn
    | |- keeps _ (Messages.error _) => unfold Messages.error
    | |- keeps _ (Messages.success _) => unfold Messages.success
    | |- keeps _ Messages.banner => unfold Messages.banner
    end.

Lemma detect_web_server_loop_keeps (tbl : table) (server_info : text) :
  keeps some_result (detect_web_server_loop tbl server_info).
Proof.
  induction tbl as [|[server pattern] rest IH];
    cbn [detect_web_server_loop]; [keep|].
  destruct (matches pattern server_info); [keep | exact IH].
Qed.

Lemma detect_web_server_keeps (server_info : text) :
  keeps some_result (detect_web_server server_info).
Proof.
  unfold detect_web_server.
  apply keeps_bind; [keep | intros _; apply detect_web_server_loop_keeps].
Qed.

Lemma validate_matches_keeps (html tech : text) (found : list text) :
  keeps some_result (V2.validate_matches html tech found).
Proof.
  induction found as [|m found IH]; cbn [V2.validate_matches]; [keep|].
  destruct (V2.is_valid_context _ _); [keep | exact IH].
Qed.

Lemma identify_technology_with_context_loop_keeps (tbl : table) (html : text) :
  keeps some_result (V2.identify_technology_loop tbl html).
Proof.
  induction tbl as [|[tech pattern] rest IH];
    cbn [V2.identify_technology_loop]; [keep|].
  apply keeps_bind; [apply validate_matches_keeps|].
  intros [|]; [keep | exact IH].
Qed.

Lemma identify_technology_with_context_keeps (html : text) :
  keeps some_result (V2.identify_technology_with_context html).
Proof.
  unfold V2.identify_technology_with_context.
  apply keeps_bind;
    [keep | intros _; apply identify_technology_with_context_loop_keeps].
Qed.

Lemma next_matching_keeps (P : state -> Prop) (pattern : regex)
      (items : HeaderMap) :
  keeps P (V2.next_matching pattern items).
Proof.
  induction items as [|[k v] items IH]; cbn [V2.next_matching].
  - intros st H. exact H.
  - destruct (matches pattern v); [apply keeps_ret | exact IH].
Qed.

Lemma identify_backend_with_context_loop_keeps (tbl : table) (html : text)
      (headers : HeaderMap) :
  keeps some_result (V2.identify_backend_language_loop tbl html headers).
Proof.
  induction tbl as [|[lang pattern] rest IH];
    cbn [V2.identify_backend_language_loop]; [keep|].
  apply keeps_bind.
  - destruct (search pattern html) as [m|]; [|keep].
    destruct (V2.is_valid_context _ _); keep.
  - intros [|]; [keep|].
    destruct (existsb _ _); [|exact IH].
    apply keeps_bind; [apply next_matching_keeps | intros v; keep].
Qed.

Lemma identify_backend_with_context_keeps (html : text) (headers : HeaderMap) :
  keeps some_result (V2.identify_backend_language_with_context html headers).
Proof.
  unfold V2.identify_backend_language_with_context.
  apply keeps_bind;
    [keep | intros _; apply identify_backend_with_context_loop_keeps].
Qed.

Lemma subscript_keeps (P : state -> Prop) (d : dict text) (k : text) :
  keeps P (subscript d k).
Proof.
  unfold subscript. destruct (dict_get k d);
    [apply keeps_ret | intros st H; exact H].
Qed.

Lemma report_items_keeps (items : dict value) :
  keeps never_empty_line (report_items items).
Proof.
  induction items as [|[key [v|d]] items IH]; cbn [report_items]; [keep| |].
  - apply keeps_bind; [keep | intros _; exact IH].
  - apply keeps_bind; [apply subscript_keeps | intros name].
    apply keeps_bind; [apply subscript_keeps | intros by_].
    apply keeps_bind; [keep | intros _; exact IH].
Qed.

(** With an entry in the results, [report] never prints the line of
    empty results. *)
Lemma report_line (self : scanner) :
  triple some_result (report self) (fun _ => never_empty_line)
         never_empty_line.
Proof.
  intros st [H R]. unfold report.
  unfold bind at 1. unfold get_results at 1.
  assert (K : keeps never_empty_line
                (match results st with
                 | [] => Messages.warn (py "No technologies detected.")
                 | _ :: _ =>
                     Messages.info (py "Scan results:") ;;
                     report_items (results st)
                 end ;;
                 res' <- get_results ;;
                 when (output_json self) (emit (PrintJson res')) ;;
                 Messages.info (py "Scan completed."))).
  { apply keeps_bind.
    - destruct (results st) as [|kv r]; [congruence|].
      apply keeps_bind; [keep | intros _; apply report_items_keeps].
    - intros _. apply keeps_bind; [intros s Hs; exact Hs|].
      intros res'. destruct (output_json self); keep. }
  exact (K st H).
Qed.

Section Console.

Variable frontend : text -> M unit.
Variable backend : text -> HeaderMap -> M unit.
Hypothesis frontend_keeps : forall html, keeps some_result (frontend html).
Hypothesis backend_keeps :
  forall html hs, keeps some_result (backend html hs).

Lemma fetch_website_line (self : scanner) (net : fetched) :
  triple never_empty_line (fetch_website self net)
         (fun r st => never_empty_line st /\ (r <> None -> results st <> []))
         never_empty_line.
Proof.
  unfold fetch_website.
  apply triple_bind with (Q1 := fun _ => never_empty_line); [keep|].
  intros _. destruct net as [e|body headers].
  - apply triple_bind with (Q1 := fun _ => never_empty_line); [keep|].
    intros _ st H. split; [exact H | congruence].
  - apply triple_bind with (Q1 := fun _ => never_empty_line); [keep|].
    intros _.
    apply triple_bind with (Q1 := fun _ => some_result).
    + intros st H. split; [exact H|]. apply dict_set_not_empty.
    + intros _.
      apply triple_bind with (Q1 := fun _ => some_result).
      * intros st H.
        pose proof (@detect_web_server_keeps
                      (headers_get (py "Server") (py "Unknown") headers)
                      st H) as K.
        destruct (detect_web_server _ st); [exact K | apply K].
      * intros _ st [H R]. split; [exact H | intros _; exact R].
Qed.

Lemma run_with_line (self : scanner) (net : fetched) :
  keeps never_empty_line (run_with frontend backend self net).
Proof.
  unfold run_with.
  apply keeps_bind; [keep | intros _].
  apply keeps_bind; [keep | intros _].
  apply triple_bind with
    (Q1 := fun r st => never_empty_line st /\
                       (r <> None -> results st <> []));
    [apply fetch_website_line|].
  intros [[[|c body] headers]|];
    try (intros st [H _]; revert st H;
         apply (@keeps_emit_line
                  (Log WARN (py "Failed to retrieve website content."))
                  eq_refl)).
  intros st [H R].
  assert (J : some_result st) by (split; [exact H | apply R; discriminate]).
  clear H R. revert st J.
  apply triple_bind with (Q1 := fun _ => some_result);
    [intros st J; pose proof (@frontend_keeps (c :: body) st J) as K;
     destruct (frontend _ st); [exact K | apply K]|].
  intros _.
  apply triple_bind with (Q1 := fun _ => some_result);
    [intros st J; pose proof (@backend_keeps (c :: body) headers st J) as K;
     destruct (backend _ _ st); [exact K | apply K]|].
  intros _. apply report_line.
Qed.

End Console.

(** X6: [run] never prints ["No technologies detected."]: whenever it
    reaches the report, [fetch_website] has stored the web server, so the
    [else] branch of [if self.results] is never taken, in main.py and in
    v2.py, whatever the response. *)
Theorem X6_no_technologies_line_is_dead (self : scanner) (net : fetched) :
  existsb is_no_technologies (out (final (Main.run self net init))) = false /\
  existsb is_no_technologies (out (final (V2.run self net init))) = false.
Proof.
  assert (I0 : never_empty_line init) by reflexivity.
  split.
  - rewrite main_run_raises. reflexivity.
  - pose proof (@run_with_line V2.identify_technology_with_context
                  V2.identify_backend_language_with_context
                  identify_technology_with_context_keeps
                  identify_backend_with_context_keeps self net init I0) as K.
    unfold V2.run.
    destruct (run_with _ _ self net init); exact K.
Qed.

(* ================================================================== *)
(** ** Further properties: the results of a scan *)
(* ================================================================== *)

Lemma identify_technology_with_context_transforms (html : text) :
  transforms (frontend_result_v2 html)
             (V2.identify_technology_with_context html).
Proof.
  intros st.
  destruct (identify_technology_with_context_spec html st) as [logs [E _]].
  exists logs. exact E.
Qed.

Lemma identify_backend_with_context_transforms (html : text)
      (headers : HeaderMap) :
  transforms (backend_result_v2 html headers)
             (V2.identify_backend_language_with_context html headers).
Proof.
  intros st.
  destruct (identify_backend_with_context_spec html headers st)
    as [logs [E _]].
  exists logs. exact E.
Qed.

Lemma frontend_result_v2_extends (html : text) (r : dict value) :
  extends (py "Frontend") r (frontend_result_v2 html r).
Proof.
  unfold frontend_result_v2.
  destruct (first_hit _ TECHNOLOGIES) as [e|]; [|left; reflexivity].
  right. eexists. split; [|reflexivity]. reflexivity.
Qed.

Lemma backend_result_v2_extends (html : text) (headers : HeaderMap)
      (r : dict value) :
  extends (py "Backend Language") r (backend_result_v2 html headers r).
Proof.
  unfold backend_result_v2.
  destruct (first_hit _ BACKEND_LANGUAGES) as [e|]; [|left; reflexivity].
  right. eexists. split; [|reflexivity].
  unfold backend_record_v2.
  destruct (search (snd e) html); [|reflexivity].
  destruct (V2.is_valid_context _ _); reflexivity.
Qed.

Section Scan.

Variable frontend : text -> M unit.
Variable backend : text -> HeaderMap -> M unit.
Variable gf : text -> dict value -> dict value.
Variable gb : text -> HeaderMap -> dict value -> dict value.
Hypothesis frontend_transforms :
  forall html, transforms (gf html) (frontend html).
Hypothesis backend_transforms :
  forall html hs, transforms (gb html hs) (backend html hs).
Hypothesis gf_extends :
  forall html r, extends (py "Frontend") r (gf html r).
Hypothesis gb_extends :
  forall html hs r, extends (py "Backend Language") r (gb html hs r).

Lemma run_with_results (self : scanner) (net : fetched) :
  returns (run_with frontend backend self net init) = true /\
  results (final (run_with frontend backend self net init)) =
  scan_results gf gb net.
Proof.
  destruct net as [e|body headers].
  - rewrite run_with_failure. split; reflexivity.
  - destruct body as [|c body].
    + destruct (run_with_empty_body frontend backend self headers init)
        as [logs [E _]].
      rewrite E. split; reflexivity.
    + unfold run_with, bind, Messages.banner, Messages.info, emit.
      cbn [results out].
      match goal with |- context [fetch_website self _ ?s] =>
        destruct (fetch_website_response self (c :: body) headers s)
          as [l0 [E0 _]] end.
      rewrite E0. cbn [results out init dict_set].
      match goal with |- context [frontend _ ?s] =>
        destruct (frontend_transforms (c :: body) s) as [l1 E1] end.
      rewrite E1. cbn [results out].
      match goal with |- context [backend _ _ ?s] =>
        destruct (backend_transforms (c :: body) headers s) as [l2 E2] end.
      rewrite E2. cbn [results out].
      set (r0 := [(py "Web Server", VStr (reported_server headers))]).
      assert (W0 : all_reportable r0 = true) by reflexivity.
      destruct (@extends_keeps (py "Frontend") (py "Web Server") _ _
                  ltac:(discriminate) W0 (gf_extends (c :: body) r0))
        as [W1 _].
      destruct (@extends_keeps (py "Backend Language") (py "Web Server") _ _
                  ltac:(discriminate) W1
                  (gb_extends (c :: body) headers (gf (c :: body) r0)))
        as [W2 _].
      match goal with |- context [report self ?s] =>
        destruct (@report_spec self s W2) as [l3 [E3 _]] end.
      rewrite E3. split; reflexivity.
Qed.

(** The keys of the results: the web server, then the front end, then
    the back end, each at most once. *)
Lemma scan_results_keys (net : fetched) :
  match net with
  | RequestException _ => keys (scan_results gf gb net) = []
  | Response _ _ =>
      exists f b : bool,
        keys (scan_results gf gb net) =
        [py "Web Server"] ++ (if f then [py "Frontend"] else [])
                          ++ (if b then [py "Backend Language"] else [])
  end.
Proof.
  destruct net as [e|body headers]; [reflexivity|].
  destruct body as [|c body]; [exists false, false; reflexivity|].
  cbn [scan_results].
  set (r0 := [(py "Web Server", VStr (reported_server headers))]).
  destruct (gf_extends (c :: body) r0) as [->|[v1 [_ ->]]];
    [destruct (gb_extends (c :: body) headers r0) as [->|[v2 [_ ->]]]
    |destruct (gb_extends (c :: body) headers
                 (dict_set (py "Frontend") v1 r0)) as [->|[v2 [_ ->]]]].
  - exists false, false. reflexivity.
  - exists false, true. reflexivity.
  - exists true, false. reflexivity.
  - exists true, true. reflexivity.
Qed.

End Scan.

(** X7: what a scan of v2.py detects depends on the response only: for
    two scanners, whatever their URL text, [verbose] and [output_json],
    [run] returns with the same results on the same response (empty
    results after a failed fetch), provided standard output can encode
    what is printed of the URLs and of the body or the error text. *)
Theorem X7_results_depend_on_the_response_only
        (self self' : scanner) (net : fetched)
        (U : printable (url self) = true) (U' : printable (url self') = true)
        (N : printable_net net = true) :
  returns (V2.run self net init) = true /\
  returns (V2.run self' net init) = true /\
  results (final (V2.run self net init)) =
  results (final (V2.run self' net init)).
Proof.
  unfold V2.run.
  pose proof (@run_with_results _ _ _ _
                identify_technology_with_context_transforms
                identify_backend_with_context_transforms
                frontend_result_v2_extends backend_result_v2_extends) as R.
  destruct (R self net) as [A B]. destruct (R self' net) as [A' B'].
  repeat split; congruence.
Qed.

Lemma X7_witness :
  printable (url example_scanner) = true /\
  printable (url (mkScanner (py "http://example.org/") false false)) = true /\
  printable_net (Response (py "xx jsx yy react zz") nginx_headers) = true /\
  results (final (V2.run example_scanner
                    (Response (py "xx jsx yy react zz") nginx_headers) init)) =
  results (final (V2.run (mkScanner (py "http://example.org/") false false)
                    (Response (py "xx jsx yy react zz") nginx_headers) init)) /\
  results (final (V2.run example_scanner
                    (Response (py "xx jsx yy react zz") nginx_headers) init)) =
  [ (py "Web Server", VStr (py "nginx"));
    (py "Frontend", detection (py "React") (py "react")) ].
Proof.
  split; [reflexivity|]. split; [reflexivity|]. split; [reflexivity|].
  split; [|reflexivity].
  apply (@X7_results_depend_on_the_response_only example_scanner
           (mkScanner (py "http://example.org/") false false)
           (Response (py "xx jsx yy react zz") nginx_headers)
           eq_refl eq_refl eq_refl).
Defined.

(** X8: at the end of [run] the keys of the results are ["Web Server"],
    then ["Frontend"], then ["Backend Language"], each at most once, and
    the two detections are there only with the web server: this is the
    order of the keys in the JSON output.  In v2.py the web server is
    there after every successful fetch (for a URL that standard output can
    encode) and the results are empty after a failed one; in main.py,
    where [run] raises at its first line, the results stay empty. *)
Theorem X8_result_keys (self : scanner) (net : fetched) :
  let shape (r : dict value) :=
    exists w f b : bool,
      keys r =
      (if w then [py "Web Server"] else [])
        ++ (if w && f then [py "Frontend"] else [])
        ++ (if w && b then [py "Backend Language"] else []) in
  shape (results (final (V2.run self net init))) /\
  shape (results (final (Main.run self net init))) /\
  match net with
  | RequestException _ => keys (results (final (V2.run self net init))) = []
  | Response _ _ =>
      printable (url self) = true ->
      dict_get (py "Web Server") (results (final (V2.run self net init)))
      <> None
  end /\
  keys (results (final (Main.run self net init))) = [].
Proof.
  cbv zeta. unfold V2.run. rewrite main_run_raises.
  destruct (@run_with_results _ _ _ _
              identify_technology_with_context_transforms
              identify_backend_with_context_transforms
              frontend_result_v2_extends backend_result_v2_extends self net)
    as [_ ->].
  pose proof (@scan_results_keys frontend_result_v2 backend_result_v2
                frontend_result_v2_extends backend_result_v2_extends net) as K.
  split; [|split; [exists false, false, false; reflexivity|split; [|reflexivity]]].
  - destruct net as [e|body headers].
    + exists false, false, false. exact K.
    + destruct K as [f [b K]]. exists true, f, b. exact K.
  - destruct net as [e|body headers]; [exact K|]. intros _.
    destruct K as [f [b K]].
    destruct (scan_results frontend_result_v2 backend_result_v2
                (Response body headers)) as [|[k v] r] eqn:E;
      [discriminate K|].
    simpl in K. injection K as -> _. simpl. discriminate.
Qed.

Lemma X8_witness :
  printable (url example_scanner) = true /\
  dict_get (py "Web Server")
    (results (final (V2.run example_scanner
                       (Response (py "xx jsx yy react zz") nginx_headers)
                       init))) <> None /\
  keys (results (final (V2.run example_scanner
                          (Response (py "xx jsx yy react zz") nginx_headers)
                          init)))
  = [py "Web Server"; py "Frontend"].
Proof.
  pose proof (X8_result_keys example_scanner
                (Response (py "xx jsx yy react zz") nginx_headers)) as H.
  cbv beta iota zeta in H. destruct H as [_ [_ [H _]]].
  split; [reflexivity|]. split; [exact (H eq_refl) | reflexivity].
Defined.

(* ================================================================== *)
(** ** Further properties: what no method undoes *)
(* ================================================================== *)

Section Stable.

(** [P] is a property of the state that printing a line and storing a
    result keep. *)
Variable P : state -> Prop.
Hypothesis P_emit :
  forall e st, P st -> P (mkState (results st) (out st ++ [e])).
Hypothesis P_set :
  forall k v st, P st -> P (mkState (dict_set k v (results st)) (out st)).

Lemma stable_emit (e : event) : keeps P (emit e).
Proof. intros st H. apply P_emit. exact H. Qed.

Lemma stable_set_result (k : text) (v : value) : keeps P (set_result k v).
Proof. intros st H. apply P_set. exact H. Qed.

Ltac stable :=
  repeat match goal with
    | |- keeps _ (ret _) => apply keeps_ret
    | |- keeps _ (set_result _ _) => apply stable_set_result
    | |- keeps _ (emit _) => apply stable_emit
    | |- keeps _ get_results => intros ? ?; assumption
    | |- keeps _ (bind _ _) => apply keeps_bind; [|intros ?]
    | |- keeps _ (when _ _) => unfold when
    | |- keeps _ (if ?b then _ else _) => destruct b
    | |- keeps _ (Messages.info _) => unfold Messages.info
    | |- keeps _ (Messages.warn _) => unfold Messages.warn
    | |- keeps _ (Messages.error _) => unfold Messages.error
    | |- keeps _ (Messages.success _) => unfold Messages.success
    | |- keeps _ Messages.banner => unfold Messages.banner
    end.

Lemma detect_web_server_stable (server_info : text) :
  keeps P (detect_web_server server_info).
Proof.
  unfold detect_web_server. apply keeps_bind; [stable | intros _].
  induction WEB_SERVERS as [|[server pattern] rest IH];
    cbn [detect_web_server_loop]; [stable|].
  destruct (matches pattern server_info); [stable | exact IH].
Qed.

Lemma identify_technology_with_context_stable (html : text) :
  keeps P (V2.identify_technology_with_context html).
Proof.
  unfold V2.identify_technology_with_context.
  apply keeps_bind; [stable | intros _].
  induction TECHNOLOGIES as [|[tech pattern] rest IH];
    cbn [V2.identify_technology_loop]; [stable|].
  apply keeps_bind.
  - induction (findall pattern html) as [|m found IHf];
      cbn [V2.validate_matches]; [stable|].
    destruct (V2.is_valid_context _ _); [stable | exact IHf].
  - intros [|]; [stable | exact IH].
Qed.

Lemma identify_backend_with_context_stable (html : text)
      (headers : HeaderMap) :
  keeps P (V2.identify_backend_language_with_context html headers).
Proof.
  unfold V2.identify_backend_language_with_context.
  apply keeps_bind; [stable | intros _].
  induction BACKEND_LANGUAGES as [|[lang pattern] rest IH];
    cbn [V2.identify_backend_language_loop]; [stable|].
  apply keeps_bind.
  - destruct (search pattern html) as [m|]; [|stable].
    destruct (V2.is_valid_context _ _); stable.
  - intros [|]; [stable|].
    destruct (existsb _ _); [|exact IH].
    apply keeps_bind; [apply next_matching_keeps | intros v; stable].
Qed.

Lemma report_stable (self : scanner) : keeps P (report self).
Proof.
  unfold report. apply keeps_bind; [stable | intros res].
  apply keeps_bind; [|intros _; stable].
  destruct res as [|kv res]; [stable|].
  apply keeps_bind; [stable | intros _].
  induction (kv :: res) as [|[key [v|d]] items IH]; cbn [report_items];
    [stable| |].
  - apply keeps_bind; [stable | intros _; exact IH].
  - apply keeps_bind; [apply subscript_keeps | intros name].
    apply keeps_bind; [apply subscript_keeps | intros by_].
    apply keeps_bind; [stable | intros _; exact IH].
Qed.

End Stable.

Lemma printed_emit (e e' : event) (st : state) :
  printed e st -> printed e (mkState (results st) (out st ++ [e'])).
Proof. unfold printed. cbn [out]. intros H. apply in_or_app. left. exact H. Qed.

Lemma printed_set (e : event) (k : text) (v : value) (st : state) :
  printed e st -> printed e (mkState (dict_set k v (results st)) (out st)).
Proof. intros H. exact H. Qed.

Section Verbose.

Variable frontend : text -> M unit.
Variable backend : text -> HeaderMap -> M unit.
Hypothesis frontend_keeps : forall P html,
  (forall e st, P st -> P (mkState (results st) (out st ++ [e]))) ->
  (forall k v st, P st -> P (mkState (dict_set k v (results st)) (out st))) ->
  keeps P (frontend html).
Hypothesis backend_keeps : forall P html hs,
  (forall e st, P st -> P (mkState (results st) (out st ++ [e]))) ->
  (forall k v st, P st -> P (mkState (dict_set k v (results st)) (out st))) ->
  keeps P (backend html hs).

(** A verbose scanner prints the line of the fetch, whatever follows. *)
Lemma run_with_prints_fetching (self : scanner) (net : fetched) (st : state) :
  verbose self = true ->
  printed (Log INFO (py "Fetching content from " ++ url self))
          (final (run_with frontend backend self net st)).
Proof.
  intros Hv.
  set (e := Log INFO (py "Fetching content from " ++ url self)).
  assert (Pe : forall e' s, printed e s ->
                 printed e (mkState (results s) (out s ++ [e'])))
    by (intros; apply printed_emit; assumption).
  assert (Ps : forall k v s, printed e s ->
                 printed e (mkState (dict_set k v (results s)) (out s)))
    by (intros; apply printed_set; assumption).
  assert (T : triple (fun _ => True) (run_with frontend backend self net)
                     (fun _ => printed e) (printed e)).
  { unfold run_with.
    apply triple_bind with (Q1 := fun _ _ => True); [intros s _; exact I|].
    intros _.
    apply triple_bind with (Q1 := fun _ _ => True); [intros s _; exact I|].
    intros _.
    apply triple_bind with (Q1 := fun _ => printed e).
    - unfold fetch_website. rewrite Hv. unfold when.
      apply triple_bind with (Q1 := fun _ => printed e).
      + intros s _. unfold printed. cbn. apply in_or_app. right. left.
        reflexivity.
      + intros _. destruct net as [x|body headers].
        * apply keeps_bind;
            [apply (@stable_emit _ Pe) | intros _; apply keeps_ret].
        * apply keeps_bind; [apply (@stable_emit _ Pe) | intros _].
          apply keeps_bind; [apply (@stable_set_result _ Ps) | intros _].
          apply keeps_bind;
            [apply (@detect_web_server_stable _ Pe Ps) | intros _].
          apply keeps_ret.
    - intros [[[|c body] headers]|];
        try apply (@stable_emit _ Pe).
      apply keeps_bind;
        [apply (frontend_keeps (printed e) (c :: body) Pe Ps) | intros _].
      apply keeps_bind;
        [apply (backend_keeps (printed e) (c :: body) headers Pe Ps)
        | intros _].
      apply (@report_stable _ Pe). }
  specialize (T st I).
  destruct (run_with frontend backend self net st); exact T.
Qed.

End Verbose.

(** X9: [main] builds its scanner with [verbose=args.verbose or True]:
    the flag [--verbose] changes nothing, in main.py and in v2.py.  In
    v2.py the scan is that of a verbose scanner and its console shows the
    line ["Fetching content from <url>"] (for a URL that standard output
    can encode); in main.py [main] ends with the [AttributeError] of
    [Messages.banner], nothing printed. *)
Theorem X9_verbose_flag_changes_nothing
        (u : text) (v j : bool) (net : fetched) :
  main_with Main.run (mkArgs u v j) net =
  main_with Main.run (mkArgs u (negb v) j) net /\
  main_with V2.run (mkArgs u v j) net =
  main_with V2.run (mkArgs u (negb v) j) net /\
  main_with V2.run (mkArgs u v j) net = V2.run (mkScanner u true j) net init /\
  main_with Main.run (mkArgs u v j) net =
  Raise (NoAttribute (py "banner")) init /\
  (printable u = true ->
   printed (Log INFO (py "Fetching content from " ++ u))
           (final (main_with V2.run (mkArgs u v j) net))).
Proof.
  unfold main_with. cbn [arg_url arg_verbose arg_json].
  rewrite !orb_true_r.
  split; [reflexivity|]. split; [reflexivity|]. split; [reflexivity|].
  split; [reflexivity|]. intros _.
  apply (@run_with_prints_fetching V2.identify_technology_with_context
           V2.identify_backend_language_with_context
           (fun P html Pe Ps =>
              @identify_technology_with_context_stable P Pe Ps html)
           (fun P html hs Pe Ps =>
              @identify_backend_with_context_stable P Pe Ps html hs)
           (mkScanner u true j) net init eq_refl).
Qed.

Lemma X9_witness :
  printable (py "http://example.com") = true /\
  printed (Log INFO (py "Fetching content from " ++ py "http://example.com"))
          (final (main_with V2.run (mkArgs (py "http://example.com") false true)
                            (RequestException (py "timed out")))).
Proof.
  split; [reflexivity|].
  apply (X9_verbose_flag_changes_nothing (py "http://example.com") false true
           (RequestException (py "timed out"))).
  reflexivity.
Defined.

(* ================================================================== *)
(** ** Further properties: [detect_backend] of v2.py and [Messages.log] *)
(* ================================================================== *)

Lemma detect_backend_headers_spec (tbl : table) (headers : HeaderMap) :
  match detect_backend_headers tbl headers with
  | Some backend => In backend (labels tbl)
  | None =>
      forall e, In e tbl -> existsb (matches (snd e)) (values headers) = false
  end.
Proof.
  induction tbl as [|[backend pattern] rest IH]; cbn [detect_backend_headers].
  - intros e [].
  - destruct (existsb (matches pattern) (values headers)) eqn:E.
    + left. reflexivity.
    + destruct (detect_backend_headers rest headers).
      * right. exact IH.
      * intros e [<-|I]; [exact E | apply IH; exact I].
Qed.

Lemma detect_backend_html_spec (tbl : table) (html : text) :
  match detect_backend_html tbl html with
  | Some backend => In backend (labels tbl)
  | None => forall e, In e tbl -> matches (snd e) html = false
  end.
Proof.
  induction tbl as [|[backend pattern] rest IH]; cbn [detect_backend_html].
  - intros e [].
  - destruct (matches pattern html) eqn:E.
    + left. reflexivity.
    + destruct (detect_backend_html rest html).
      * right. exact IH.
      * intros e [<-|I]; [exact E | apply IH; exact I].
Qed.

(** X10: [detect_backend] of v2.py never returns [None].  It returns a
    label of its table, after printing one success line and without
    touching the results, when a pattern is found in a header value or in
    the body; when none is found it stops at [Messages.warning], an
    attribute the class [Messages] does not have. *)
Theorem X10_detect_backend_never_returns_none
        (headers : HeaderMap) (html : text) (st : state) :
  match detect_backend headers html st with
  | Returned None _ => False
  | Returned (Some backend) st' =>
      In backend [py "PHP"; py "Python"; py "Ruby"; py "Node.js"] /\
      results st' = results st /\
      out st' =
        out st ++ [Log SUCCESS (py "Detected backend language: " ++ backend)]
  | AttributeError attribute st' =>
      attribute = py "warning" /\ st' = st /\
      forall e, In e backend_patterns ->
        matches (snd e) html = false /\
        existsb (matches (snd e)) (values headers) = false
  end.
Proof.
  unfold detect_backend.
  pose proof (detect_backend_headers_spec backend_patterns headers) as Hh.
  pose proof (detect_backend_html_spec backend_patterns html) as Hb.
  destruct (detect_backend_headers backend_patterns headers) as [b|].
  - split; [exact Hh|]. split; reflexivity.
  - destruct (detect_backend_html backend_patterns html) as [b|].
    + split; [exact Hb|]. split; reflexivity.
    + split; [reflexivity|]. split; [reflexivity|].
      intros e I. split; [apply Hb | apply Hh]; exact I.
Qed.

(** X11: in [detect_backend] of v2.py the headers are searched, for all
    labels, before the body: when a pattern is found in some header value
    the function returns the same label for every body, also for a body
    in which the pattern of an earlier label is found. *)
Theorem X11_detect_backend_headers_first
        (headers : HeaderMap) (html html' : text) (st : state)
        (H : header_evidence headers = true) :
  detect_backend headers html st = detect_backend headers html' st /\
  exists backend st',
    detect_backend headers html st = Returned (Some backend) st'.
Proof.
  unfold detect_backend.
  pose proof (detect_backend_headers_spec backend_patterns headers) as Hh.
  destruct (detect_backend_headers backend_patterns headers) as [b|].
  - split; [reflexivity|]. eexists. eexists. reflexivity.
  - exfalso. unfold header_evidence in H.
    apply existsb_exists in H as [e [I E]].
    rewrite (Hh e I) in E. discriminate E.
Qed.

Lemma X11_witness :
  header_evidence express_headers = true /\
  matches (word ".php") (py "/index.php") = true /\
  detect_backend express_headers (py "/index.php") init =
  detect_backend express_headers [] init /\
  exists st',
    detect_backend express_headers (py "/index.php") init =
    Returned (Some (py "Node.js")) st'.
Proof.
  split; [reflexivity|]. split; [reflexivity|]. split.
  - apply (@X11_detect_backend_headers_first express_headers
             (py "/index.php") [] init eq_refl).
  - eexists. reflexivity.
Defined.

Lemma app_same_length (A : Type) (a a' b b' : list A) :
  List.length a = List.length a' -> a ++ b = a' ++ b' -> a = a' /\ b = b'.
Proof.
  revert a'. induction a as [|x a IH]; intros [|x' a'] L H;
    try discriminate L.
  - split; [reflexivity | exact H].
  - injection L as L. injection H as -> H.
    destruct (IH a' L H) as [-> ->]. split; reflexivity.
Qed.

(** X12: a line of [Messages.log] tells its level, its time stamp and its
    message: two lines with time stamps of the same width are equal only
    when the three are equal.  (The tags and colours of [info], [warn],
    [error] and [success] never coincide.) *)
Theorem X12_log_line_is_injective
        (timestamp timestamp' : text) (l l' : level) (message message' : text)
        (W : List.length timestamp = List.length timestamp')
        (H : log_line timestamp l message = log_line timestamp' l' message') :
  l = l' /\ timestamp = timestamp' /\ message = message'.
Proof.
  unfold log_line, log in H.
  destruct l, l'; cbn in H; try discriminate H;
    (split; [reflexivity|]);
    repeat match type of H with _ :: _ = _ :: _ => injection H as H end;
    apply (app_same_length _ _ _ _ W) in H as [-> H];
    (split; [reflexivity|]);
    repeat match type of H with _ :: _ = _ :: _ => injection H as H end;
    exact H.
Qed.

Lemma X12_witness :
  List.length (py "2026-11-03 10:00:00") = List.length (py "2026-11-03 10:00:00") /\
  log_line (py "2026-11-03 10:00:00") WARN (py "No backend language detected.")
  = py "[" ++ ESC ++ py "[1;93mWARN" ++ ESC
       ++ py "[0m] 2026-11-03 10:00:00 - No backend language detected." /\
  (WARN = WARN /\ py "2026-11-03 10:00:00" = py "2026-11-03 10:00:00" /\
   py "No backend language detected." = py "No backend language detected.").
Proof.
  split; [reflexivity|]. split; [reflexivity|].
  apply (@X12_log_line_is_injective (py "2026-11-03 10:00:00")
           (py "2026-11-03 10:00:00") WARN WARN
           (py "No backend language detected.")
           (py "No backend language detected.") eq_refl eq_refl).
Defined.

(* ================================================================== *)
(** ** Further properties: slots and first and last labels *)
(* ================================================================== *)

Lemma transforms_frame (k k0 : text) (g : dict value -> dict value)
      (f : M unit) (st : state) :
  transforms g f -> extends k (results st) (g (results st)) -> k0 <> k ->
  dict_get k0 (results (final (f st))) = dict_get k0 (results st).
Proof.
  intros T X Hne. destruct (T st) as [logs E]. rewrite E. cbn [final results].
  destruct X as [->|[v [_ ->]]]; [reflexivity|].
  apply dict_get_set_other. exact Hne.
Qed.

(** X13: a detector writes to its own slot only.  The front-end detectors
    of main.py and v2.py leave every entry of the results but
    ["Frontend"] as it was, the back-end detectors every entry but
    ["Backend Language"]; so the back end never disturbs the front-end
    detection, and neither touches the web server. *)
Theorem X13_detectors_keep_the_other_slots
        (html : text) (headers : HeaderMap) (st : state) :
  (forall k, k <> py "Frontend" ->
     dict_get k (results (final (Main.identify_technology html st)))
     = dict_get k (results st) /\
     dict_get k (results (final (V2.identify_technology_with_context html st)))
     = dict_get k (results st)) /\
  (forall k, k <> py "Backend Language" ->
     dict_get k (results (final (Main.identify_backend_language html headers st)))
     = dict_get k (results st) /\
     dict_get k (results (final (V2.identify_backend_language_with_context
                                   html headers st)))
     = dict_get k (results st)).
Proof.
  split; intros k Hk; split.
  - rewrite main_identify_technology_raises. reflexivity.
  - apply (@transforms_frame _ _ _ _ st
             (identify_technology_with_context_transforms html)
             (frontend_result_v2_extends html (results st)) Hk).
  - rewrite main_identify_backend_language_raises. reflexivity.
  - apply (@transforms_frame _ _ _ _ st
             (identify_backend_with_context_transforms html headers)
             (backend_result_v2_extends html headers (results st)) Hk).
Qed.

Lemma X13_witness :
  py "Web Server" <> py "Frontend" /\
  py "Frontend" <> py "Backend Language" /\
  dict_get (py "Web Server")
    (results (final (Main.identify_technology (py "django flask")
                       (mkState [(py "Web Server", VStr (py "nginx"))] []))))
  = Some (VStr (py "nginx")) /\
  dict_get (py "Frontend")
    (results (final (Main.identify_backend_language (py "index.php") []
                       (mkState [(py "Frontend",
                                  detection (py "Flask") (py "flask"))] []))))
  = Some (detection (py "Flask") (py "flask")).
Proof.
  destruct (X13_detectors_keep_the_other_slots (py "django flask") []
              (mkState [(py "Web Server", VStr (py "nginx"))] [])) as [A _].
  destruct (X13_detectors_keep_the_other_slots (py "index.php") []
              (mkState [(py "Frontend", detection (py "Flask") (py "flask"))]
                       [])) as [_ B].
  split; [discriminate|]. split; [discriminate|]. split.
  - apply (A (py "Web Server")). discriminate.
  - apply (B (py "Frontend")). discriminate.
Defined.

(* ================================================================== *)
(** ** Further properties: the web server of v2.py *)
(* ================================================================== *)

(** On a Latin-1 character a literal compares ASCII lower cases. *)
Lemma lit_match_latin1 (p c : char) :
  (c < 256)%N ->
  lit_match p c =
  ((if is_upper c then c + 32 else c) =? (if is_upper p then p + 32 else p))%N.
Proof.
  intros H. unfold lit_match, tolower, is_upper, is_lower.
  assert (E1 : (c =? 304)%N = false) by (apply N.eqb_neq; lia).
  assert (E2 : (c =? 8490)%N = false) by (apply N.eqb_neq; lia).
  assert (E3 : (c =? 305)%N = false) by (apply N.eqb_neq; lia).
  assert (E4 : (c =? 383)%N = false) by (apply N.eqb_neq; lia).
  rewrite E1, E2, E3, E4, !andb_false_r, !orb_false_r.
  destruct (N.eqb_spec p 304); destruct (N.eqb_spec p 8490);
  repeat match goal with
         | |- context [(?a <=? ?b)%N] =>
             destruct (N.leb_spec a b); cbn [andb orb]
         end;
  repeat match goal with
         | |- context [(?a =? ?b)%N] =>
             destruct (N.eqb_spec a b); cbn [andb orb]
         end; try reflexivity; lia.
Qed.

(** On a Latin-1 subject a word matches at the head exactly when the
    lower-cased subject starts with the lower-cased word. *)
Lemma rmatch_word_latin1 (A : Type) (t : text) :
  forall (c : char) (s : text) (g : option text)
         (k : text -> option text -> option A),
    latin1 s = true ->
    rmatch (word_from c t) s g k =
    if startswith (lower_ascii (c :: t)) (lower_ascii s)
    then k (skipn (S (List.length t)) s) g else None.
Proof.
  induction t as [|e t IH]; intros c s g k L.
  - destruct s as [|d s]; [reflexivity|].
    cbn [latin1 forallb] in L. apply andb_true_iff in L as [L1 L2].
    apply N.ltb_lt in L1.
    cbn [word_from rmatch lower_ascii map startswith skipn].
    rewrite (lit_match_latin1 c L1), N.eqb_sym, andb_true_r. reflexivity.
  - destruct s as [|d s]; [reflexivity|].
    cbn [latin1 forallb] in L. apply andb_true_iff in L as [L1 L2].
    apply N.ltb_lt in L1.
    cbn [word_from rmatch]. rewrite (lit_match_latin1 c L1).
    change (lower_ascii (c :: e :: t))
      with ((if is_upper c then (c + 32)%N else c) :: lower_ascii (e :: t)).
    change (lower_ascii (d :: s))
      with ((if is_upper d then (d + 32)%N else d) :: lower_ascii s).
    cbn [startswith]. rewrite N.eqb_sym.
    destruct (_ =? _)%N; [|reflexivity].
    cbn [andb]. rewrite (IH e s g k L2). reflexivity.
Qed.

(** On a Latin-1 subject a word of a pattern is found exactly when its
    lower case is a substring of the lower-cased subject. *)
Lemma matches_word_latin1 (c : char) (t s : text) :
  latin1 s = true ->
  matches (word_from c t) s = contains (lower_ascii (c :: t)) (lower_ascii s).
Proof.
  intros L. unfold matches, search.
  assert (G : forall i,
             is_some (search_from (word_from c t) s i)
             = contains (lower_ascii (c :: t)) (lower_ascii s)).
  { induction s as [|d s IH]; intros i.
    - cbn [search_from]. unfold match_here.
      rewrite rmatch_word_latin1 by exact L. reflexivity.
    - assert (L2 : latin1 s = true)
        by (cbn [latin1 forallb] in L; apply andb_true_iff in L; apply L).
      cbn [search_from]. unfold match_here.
      rewrite rmatch_word_latin1 by exact L.
      change (lower_ascii (d :: s))
        with ((if is_upper d then (d + 32)%N else d) :: lower_ascii s).
      cbn [contains].
      destruct (startswith _ _); [reflexivity|].
      cbn [orb]. apply IH. exact L2. }
  specialize (G 0%Z). destruct (search_from _ s 0); exact G.
Qed.

(** X17: [detect_web_server] of v2.py returns for every value of the
    [Server] header; it goes through nginx, Apache, LiteSpeed in this
    order and stores the label of the first pattern found in the value,
    whatever the case of its ASCII letters.  For a Latin-1 value (what a
    header value is) a pattern is found exactly when its name in lower
    case is a substring of the value in lower case.  So
    ["nginx/1.18.0"] is recorded as nginx, ["Apache/2.4.41 (Ubuntu)"] as
    Apache, ["LITESPEED"] as LiteSpeed, a value that names both Apache
    and nginx as nginx; for ["Unknown"] (the value [fetch_website] passes
    when the header is absent) and for ["Microsoft-IIS/10.0"] nothing is
    stored and the console shows a warning. *)
Theorem X17_web_server_first_match (server_info : text) (st : state) :
  let o := detect_web_server server_info st in
  let low := lower_ascii server_info in
  let record (l : option text) :=
    match l with
    | Some label => dict_set (py "Web Server") (VStr label) (results st)
    | None => results st
    end in
  returns o = true /\
  results (final o) =
    record (option_map fst
              (first_hit (fun _ p => matches p server_info) WEB_SERVERS)) /\
  labels WEB_SERVERS = [py "nginx"; py "Apache"; py "LiteSpeed"] /\
  first_hit (fun _ p => matches p low) WEB_SERVERS =
  first_hit (fun _ p => matches p server_info) WEB_SERVERS /\
  (latin1 server_info = true ->
   results (final o) =
     record (if contains (py "nginx") low then Some (py "nginx")
             else if contains (py "apache") low then Some (py "Apache")
             else if contains (py "litespeed") low then Some (py "LiteSpeed")
             else None)) /\
  results (final (detect_web_server (py "nginx/1.18.0") init))
    = [(py "Web Server", VStr (py "nginx"))] /\
  results (final (detect_web_server (py "Apache/2.4.41 (Ubuntu)") init))
    = [(py "Web Server", VStr (py "Apache"))] /\
  results (final (detect_web_server (py "LITESPEED") init))
    = [(py "Web Server", VStr (py "LiteSpeed"))] /\
  results (final (detect_web_server (py "Apache behind NGINX") init))
    = [(py "Web Server", VStr (py "nginx"))] /\
  results (final (detect_web_server (py "Microsoft-IIS/10.0") init)) = [] /\
  detect_web_server (py "Unknown") st =
    Ok tt (mkState (results st)
             (out st ++
              [ Log INFO (py "Analyzing web server information.");
                Log WARN (py "No known web server detected.") ])).
Proof.
  cbv zeta.
  destruct (detect_web_server_spec server_info st) as [logs [E _]].
  rewrite E. cbn [returns final results]. unfold web_server_record.
  split; [reflexivity|].
  split; [destruct (first_hit _ WEB_SERVERS); reflexivity|].
  split; [reflexivity|].
  split.
  { unfold first_hit, WEB_SERVERS. cbn [find fst snd].
    rewrite !matches_lower. reflexivity. }
  split.
  { intros L. unfold first_hit, WEB_SERVERS. cbn [find fst snd].
    change (word "nginx") with (word_from 110%N (py "ginx")).
    change (word "apache") with (word_from 97%N (py "pache")).
    change (word "LiteSpeed") with (word_from 76%N (py "iteSpeed")).
    rewrite !(@matches_word_latin1 _ _ _ L).
    change (lower_ascii (110%N :: py "ginx")) with (py "nginx").
    change (lower_ascii (97%N :: py "pache")) with (py "apache").
    change (lower_ascii (76%N :: py "iteSpeed")) with (py "litespeed").
    destruct (contains (py "nginx") _); [reflexivity|].
    destruct (contains (py "apache") _); [reflexivity|].
    destruct (contains (py "litespeed") _); reflexivity. }
  split; [reflexivity|]. split; [reflexivity|]. split; [reflexivity|].
  split; [reflexivity|]. split; [reflexivity|].
  change (detect_web_server (py "Unknown") st)
    with (Ok tt (mkState (results st)
            ((out st ++ [Log INFO (py "Analyzing web server information.")])
               ++ [Log WARN (py "No known web server detected.")]))).
  rewrite <- app_assoc. reflexivity.
Qed.

Lemma X17_witness :
  latin1 (py "Server: Apache-Coyote/1.1") = true /\
  results (final (detect_web_server (py "Server: Apache-Coyote/1.1")
                    (mkState [(py "Web Server",
                               VStr (py "Server: Apache-Coyote/1.1"))] [])))
  = [(py "Web Server", VStr (py "Apache"))].
Proof.
  split; [reflexivity|].
  pose proof (X17_web_server_first_match (py "Server: Apache-Coyote/1.1")
                (mkState [(py "Web Server",
                           VStr (py "Server: Apache-Coyote/1.1"))] [])) as H.
  cbv zeta in H. destruct H as [_ [_ [_ [_ [H _]]]]].
  rewrite (H eq_refl). reflexivity.
Defined.

(* ================================================================== *)
(** ** Further properties: the fetch and the scan of v2.py *)
(* ================================================================== *)

Lemma headers_get_latin1 (k default : text) (headers : HeaderMap) :
  latin1 default = true ->
  forallb latin1 (values headers) = true ->
  latin1 (headers_get k default headers) = true.
Proof.
  intros D. induction headers as [|[name v] h IH]; intros L; [exact D|].
  cbn [values map snd forallb] in L. apply andb_true_iff in L as [L1 L2].
  cbn [headers_get]. destruct (text_eqb _ _); [exact L1 | apply IH; exact L2].
Qed.

(** The server [fetch_website] reports, read off a Latin-1 header value. *)
Lemma reported_server_latin1 (headers : HeaderMap) :
  forallb latin1 (values headers) = true ->
  reported_server headers =
  let raw := headers_get (py "Server") (py "Unknown") headers in
  let low := lower_ascii raw in
  if contains (py "nginx") low then py "nginx"
  else if contains (py "apache") low then py "Apache"
  else if contains (py "litespeed") low then py "LiteSpeed"
  else raw.
Proof.
  intros L. cbv zeta. unfold reported_server, server_of.
  pose proof (@headers_get_latin1 (py "Server") (py "Unknown") headers
                eq_refl L) as R.
  unfold first_hit, WEB_SERVERS. cbn [find fst snd].
  change (word "nginx") with (word_from 110%N (py "ginx")).
  change (word "apache") with (word_from 97%N (py "pache")).
  change (word "LiteSpeed") with (word_from 76%N (py "iteSpeed")).
  rewrite !(@matches_word_latin1 _ _ _ R).
  change (lower_ascii (110%N :: py "ginx")) with (py "nginx").
  change (lower_ascii (97%N :: py "pache")) with (py "apache").
  change (lower_ascii (76%N :: py "iteSpeed")) with (py "litespeed").
  destruct (contains (py "nginx") _); [reflexivity|].
  destruct (contains (py "apache") _); [reflexivity|].
  destruct (contains (py "litespeed") _); reflexivity.
Qed.

(** X18: after every successful fetch the results of v2.py's scanner hold
    the key ["Web Server"].  [fetch_website] looks the header [Server] up
    whatever the case of the ASCII letters of its name and takes
    ["Unknown"] when it is absent; it returns with nginx, Apache or
    LiteSpeed when the value names one of them (the first in this order,
    any letter case) and else with the raw value.  The entry is still
    there at the end of [run], and it is part of the results that
    [--json] prints, which happens when the body is not empty.  (The URL
    and the body are taken to be text that standard output can encode,
    the header values to be Latin-1.) *)
Theorem X18_web_server_always_recorded
        (self : scanner) (body : text) (headers : HeaderMap) (st : state)
        (U : printable (url self) = true) (B : printable body = true)
        (L : forallb latin1 (values headers) = true) :
  let raw := headers_get (py "Server") (py "Unknown") headers in
  let low := lower_ascii raw in
  let server :=
    if contains (py "nginx") low then py "nginx"
    else if contains (py "apache") low then py "Apache"
    else if contains (py "litespeed") low then py "LiteSpeed"
    else raw in
  let got := fetch_website self (Response body headers) st in
  let scan := V2.run self (Response body headers) init in
  returns got = true /\
  dict_get (py "Web Server") (results (final got)) = Some (VStr server) /\
  returns scan = true /\
  dict_get (py "Web Server") (results (final scan)) = Some (VStr server) /\
  json_output (final scan) =
    match body with
    | [] => []
    | _ :: _ => if output_json self then [results (final scan)] else []
    end /\
  headers_get (py "Server") (py "Unknown") [] = py "Unknown" /\
  (forall name v h,
      lower_ascii name = py "server" ->
      headers_get (py "Server") (py "Unknown") ((name, v) :: h) = v) /\
  (forall name v h,
      lower_ascii name <> py "server" ->
      headers_get (py "Server") (py "Unknown") ((name, v) :: h) =
      headers_get (py "Server") (py "Unknown") h).
Proof.
  cbv zeta.
  pose proof (reported_server_latin1 headers L) as S. cbv zeta in S.
  rewrite <- S.
  destruct (fetch_website_response self body headers st) as [logs [E _]].
  rewrite E. cbn [returns final results].
  split; [reflexivity|]. split; [apply dict_get_set_same|].
  destruct (@run_with_response V2.identify_technology_with_context
              V2.identify_backend_language_with_context
              identify_technology_with_context_detector
              identify_backend_with_context_detector
              self body headers)
    as [R2 [G2 J2]].
  unfold V2.run.
  split; [exact R2|]. split; [exact G2|]. split; [exact J2|].
  split; [reflexivity|]. split.
  - intros name v h H. cbn [headers_get]. rewrite H.
    change (lower_ascii (py "Server")) with (py "server").
    rewrite text_eqb_refl. reflexivity.
  - intros name v h H. cbn [headers_get].
    change (lower_ascii (py "Server")) with (py "server").
    destruct (text_eqb (lower_ascii name) (py "server")) eqn:T;
      [|reflexivity].
    apply text_eqb_eq in T. contradiction.
Qed.

Lemma X18_witness :
  printable (url example_scanner) = true /\
  printable (py "<html></html>") = true /\
  forallb latin1 (values [(py "Content-Type", py "text/html");
                          (py "SERVER", py "gws")]) = true /\
  (let scan := V2.run example_scanner
                 (Response (py "<html></html>")
                    [(py "Content-Type", py "text/html");
                     (py "SERVER", py "gws")]) init in
   dict_get (py "Web Server") (results (final scan)) = Some (VStr (py "gws")) /\
   json_output (final scan) = [[(py "Web Server", VStr (py "gws"))]]).
Proof.
  split; [reflexivity|]. split; [reflexivity|]. split; [reflexivity|].
  pose proof (@X18_web_server_always_recorded example_scanner
                (py "<html></html>")
                [(py "Content-Type", py "text/html"); (py "SERVER", py "gws")]
                init eq_refl eq_refl eq_refl) as H.
  cbv zeta in H. destruct H as [_ [_ [_ [G [J _]]]]].
  cbv zeta. split; [exact G|]. rewrite J. reflexivity.
Defined.
